(** * mcp-dutch-postal-codes: the two address lookup tools and the formatter

    A shallow embedding of [main.go]: the [Address] record, the two lookup
    operations ([lookupByPostalCode], [lookupByCoordinates]), the two tool
    handlers registered by [registerPostalCodeTools], [formatAddress], and
    the part of [main] that turns the flags into transports ([mainSetup];
    [net.SplitHostPort] and [net.JoinHostPort] are its parameters).

    What the program gets from Go's libraries is modelled as follows.
    - [strings.ReplaceAll], [strings.Join], [strconv.Itoa], [strings.Builder]
      and the [%v] / [%d] verbs of [fmt] on strings and ints are written out.
    - [float64] is Rocq's primitive binary64 [float]; comparison with zero is
      the IEEE comparison, as Go's [!=] is.
    - The textual rendering of a [float64] by [%v], the HTTP client and the
      JSON decoder are fields of a record [Env]: the program is a function of
      what these return.
    - [ftoa.FormatFloat] writes out what [%v] prints for a [float64];
      [goFmtEnv] is an environment that renders floats with it. *)

From Stdlib Require Import String Ascii List ZArith Bool Lia.
From Stdlib Require Import DecimalString.
From Stdlib Require Import PrimFloat FloatOps SpecFloat.
Import ListNotations.

Open Scope string_scope.

(** ** Go library functions the program calls *)

(** The line feed written as [\n] in Go string literals. *)
Definition nl : string := String "010"%char EmptyString.

Module strings.

(** [strings.ReplaceAll(s, old, new)] for a non-empty [old]: the
    non-overlapping occurrences of [old] are replaced from left to right.
    [skip] counts the bytes of a matched occurrence still to be dropped.
    (For an empty [old] Go inserts [new] at every rune boundary; the program
    never calls it that way and this case is not covered here.) *)
Fixpoint replaceFrom (skip : nat) (s old new : string) : string :=
  match s with
  | EmptyString => EmptyString
  | String c s' =>
      match skip with
      | S k => replaceFrom k s' old new
      | O =>
          if String.prefix old s
          then new ++ replaceFrom (String.length old - 1) s' old new
          else String c (replaceFrom 0 s' old new)
      end
  end.

Definition ReplaceAll (s old new : string) : string := replaceFrom 0 s old new.

(** [strings.Join(elems, sep)]. *)
Fixpoint Join (elems : list string) (sep : string) : string :=
  match elems with
  | [] => ""
  | [e] => e
  | e :: rest => e ++ sep ++ Join rest sep
  end.

(** [strings.Builder]: the chunks written so far, oldest first. *)
Definition Builder := list string.

Definition WriteString (sb : Builder) (s : string) : Builder := (sb ++ [s])%list.

Fixpoint String_ (sb : Builder) : string :=
  match sb with
  | [] => ""
  | chunk :: rest => chunk ++ String_ rest
  end.

End strings.

Module strconv.

(** [strconv.Itoa], also what [%v] and [%d] print for an [int]. *)
Definition Itoa (i : Z) : string := NilEmpty.string_of_int (Z.to_int i).

End strconv.

(** [strconv]'s float formatting (ftoa.go), for the one call [%v] makes on a
    [float64]: format ['g'], shortest precision, 64 bits. The digits are
    given by what they are, the fewest digits whose decimal rounds back to
    the float (the decimal nearest to the float when two of that length
    do), as [roundShortest] finds them; the layouts [%e] and [%f] and the
    choice between them follow ftoa.go. *)
Module ftoa.

(** [c * 10^k] compared with [v * 2^s], for any signs of [k] and [s]. *)
Definition compareScaled (c k v s : Z) : comparison :=
  Z.compare (c * 10 ^ Z.max k 0 * 2 ^ Z.max (- s) 0)
            (v * 2 ^ Z.max s 0 * 10 ^ Z.max (- k) 0).

(** The integer part of [v * 2^s / 10^k]. *)
Definition floorScaled (v s k : Z) : Z :=
  ((v * 2 ^ Z.max s 0 * 10 ^ Z.max (- k) 0) / (10 ^ Z.max k 0 * 2 ^ Z.max (- s) 0))%Z.

(** The least [p], from [p] on, with [v * 2^s < 10^p]. *)
Fixpoint pointFrom (fuel : nat) (p v s : Z) : Z :=
  match fuel with
  | O => p
  | S fuel' =>
      match compareScaled 1 p v s with
      | Gt => p
      | _ => pointFrom fuel' (p + 1)%Z v s
      end
  end.

(** [c * 10^k] without the zeros [c] ends in. *)
Fixpoint stripZeros (fuel : nat) (c k : Z) : Z * Z :=
  match fuel with
  | O => (c, k)
  | S fuel' =>
      if ((c mod 10 =? 0) && negb (c =? 0))%Z
      then stripZeros fuel' (c / 10)%Z (k + 1)%Z
      else (c, k)
  end.

(** The shortest decimal [c * 10^k] between [lo] and [hi], the bounds
    included when [inclusive]; [x], [lo] and [hi] are in units of [2^s] and
    [10^(p-1) <= x * 2^s < 10^p]. Tried with [n], [n+1], ... digits: the
    float's decimal cut after [n] digits ([down]) or the next one up, the
    nearer of the two when both are in. *)
Fixpoint shortestFrom (fuel : nat) (n p x lo hi s : Z) (inclusive : bool) : Z * Z :=
  let k := (p - n)%Z in
  let down := floorScaled x s k in
  let up := (down + 1)%Z in
  match fuel with
  | O => (down, k)
  | S fuel' =>
      let okdown :=
        match compareScaled down k lo s with
        | Gt => true | Eq => inclusive | Lt => false
        end in
      let okup :=
        match compareScaled up k hi s with
        | Lt => true | Eq => inclusive | Gt => false
        end in
      let roundUp :=
        match compareScaled (2 * down + 1) k (2 * x) s with
        | Lt => true | Eq => Z.odd down | Gt => false
        end in
      if okdown && okup then (if roundUp then (up, k) else (down, k))
      else if okdown then (down, k)
      else if okup then (up, k)
      else shortestFrom fuel' (n + 1)%Z p x lo hi s inclusive
  end.

(** The digits and the decimal point of the shortest decimal that rounds to
    the float [m * 2^e]: the value is [0.d1d2... * 10^dp]. The bounds are
    the midpoints to the neighbouring floats, the lower neighbour being
    half as far below a power of two; they round to the float itself when
    its mantissa is even. *)
Definition shortest (m : positive) (e : Z) : string * Z :=
  let mant := Zpos m in
  let s := (e - 2)%Z in
  let x := (4 * mant)%Z in
  let hi := (4 * mant + 2)%Z in
  let lo :=
    if ((mant =? 2 ^ 52) && (-1074 <? e))%Z then (4 * mant - 1)%Z
    else (4 * mant - 2)%Z in
  let p := pointFrom 700 (-330) x s in
  let '(c, k) := shortestFrom 17 1 p x lo hi s (Z.even mant) in
  let '(c, k) := stripZeros 20 c k in
  let d := NilEmpty.string_of_uint (N.to_uint (Z.to_N c)) in
  (d, (Z.of_nat (String.length d) + k)%Z).

(** [n] zeros. *)
Fixpoint zeros (n : nat) : string :=
  match n with
  | O => ""
  | S n' => String "0" (zeros n')
  end.

(** Digit [j] of [d], or a zero beyond its ends. *)
Definition digitAt (d : string) (j : Z) : ascii :=
  if (j <? 0)%Z then "0"%char
  else match String.get (Z.to_nat j) d with
       | Some c => c
       | None => "0"%char
       end.

(** The [n] digits of [d] from digit [j] on. *)
Fixpoint digitsFrom (d : string) (j : Z) (n : nat) : string :=
  match n with
  | O => ""
  | S n' => String (digitAt d j) (digitsFrom d (j + 1)%Z n')
  end.

Definition sign (neg : bool) : string := if neg then "-" else "".

(** [%f] with [prec] digits after the point. *)
Definition fmtF (neg : bool) (d : string) (dp : Z) (prec : Z) : string :=
  let nd := Z.of_nat (String.length d) in
  sign neg
    ++ (if (0 <? dp)%Z
        then let m := Z.min nd dp in
             substring 0 (Z.to_nat m) d ++ zeros (Z.to_nat (dp - m))
        else "0")
    ++ (if (0 <? prec)%Z then "." ++ digitsFrom d dp (Z.to_nat prec) else "").

(** The exponent, of two digits at least. *)
Definition exponentDigits (exp : Z) : string :=
  let digits := NilZero.string_of_uint (N.to_uint (Z.to_N exp)) in
  if (exp <? 10)%Z then "0" ++ digits else digits.

(** [%e] with [prec] digits after the point. *)
Definition fmtE (neg : bool) (d : string) (dp : Z) (prec : Z) : string :=
  let nd := Z.of_nat (String.length d) in
  let exp := if (nd =? 0)%Z then 0%Z else (dp - 1)%Z in
  sign neg
    ++ String (digitAt d 0) ""
    ++ (if (0 <? prec)%Z then "." ++ digitsFrom d 1 (Z.to_nat prec) else "")
    ++ "e"
    ++ (if (exp <? 0)%Z then "-" else "+")
    ++ exponentDigits (Z.abs exp).

(** [%g] of the shortest digits: [%e] when the exponent is below -4 or at
    least 6, [%f] otherwise. *)
Definition fmtG (neg : bool) (d : string) (dp : Z) : string :=
  let nd := Z.of_nat (String.length d) in
  let exp := (dp - 1)%Z in
  if ((exp <? -4) || (6 <=? exp))%Z
  then fmtE neg d dp (nd - 1)
  else fmtF neg d dp (Z.max (nd - dp) 0).

(** [strconv.FormatFloat(f, 'g', -1, 64)], which is what [%v] prints. *)
Definition FormatFloat (f : float) : string :=
  match Prim2SF f with
  | S754_nan => "NaN"
  | S754_infinity neg => if neg then "-Inf" else "+Inf"
  | S754_zero neg => fmtG neg "" 0
  | S754_finite neg m e => let '(d, dp) := shortest m e in fmtG neg d dp
  end.

End ftoa.

(** Go's [error] values as the program sees them: [errors.errorString] (and any
    library error, known by its message) and the [fmt.wrapError] that
    [fmt.Errorf] builds for a [%w] verb. *)
Inductive error : Type :=
| errorString (s : string)
| wrapError (msg : string) (err : error).

Definition Error (e : error) : string :=
  match e with
  | errorString s => s
  | wrapError msg _ => msg
  end.

(** A Go result pair [(T, error)] with exactly one side set. *)
Inductive result (A : Type) : Type :=
| Ok (a : A)
| Err (e : error).

Arguments Ok {A} a.
Arguments Err {A} e.

(** ** The data model *)

Definition baseURL : string := "https://berthub.eu/pcode".

Record Address : Type := mkAddress {
  Street : string;
  HouseNumber : Z;
  HouseLetter : string;
  HouseSuffix : string;
  City : string;
  PostalCode : string;
  Area : Z;
  UsagePurposes : list string;
  BuildYear : Z;
  NumberStatus : string;
  Latitude : float;
  Longitude : float;
  X : string;
  Y : string
}.

(** The assignment [addr.PostalCode = postalCode]. *)
Definition setPostalCode (addr : Address) (postalCode : string) : Address :=
  mkAddress (Street addr) (HouseNumber addr) (HouseLetter addr) (HouseSuffix addr)
    (City addr) postalCode (Area addr) (UsagePurposes addr) (BuildYear addr)
    (NumberStatus addr) (Latitude addr) (Longitude addr) (X addr) (Y addr).

(** [net/http]'s request and response, as far as the program reads them. *)
Record Request : Type := mkRequest { Method : string; URL : string }.

Record Response : Type := mkResponse { StatusCode : Z; Body : string }.

Definition StatusOK : Z := 200.

(** What the program obtains from outside itself. [ctx] (the 5 second
    deadline) only decides what [http_Do] returns, so it is part of it. *)
Record Env : Type := mkEnv {
  (** [%v] of a [float64] *)
  fmt_float64 : float -> string;
  (** [http.NewRequestWithContext(ctx, method, url, nil)] *)
  http_NewRequestWithContext : string -> string -> result Request;
  (** [http.DefaultClient.Do(req)] *)
  http_Do : Request -> result Response;
  (** [json.NewDecoder(resp.Body).Decode(&addresses)] *)
  json_Decode : string -> result (list Address)
}.

(** The [go-mcp] tool result. *)
Module mcp.

Inductive Content : Type :=
| TextContent (Text : string).

Record CallToolResult : Type := mkCallToolResult {
  Content_ : list Content;
  IsError : bool
}.

End mcp.

(** ** formatAddress *)

Section Program.

Variable env : Env.

(** The builder of [formatAddress] just before [sb.String()]. *)
Definition formatAddress_sb (addr : Address) : strings.Builder :=
  let sb : strings.Builder := [] in
  let sb := strings.WriteString sb ("  Street: " ++ Street addr ++ nl) in
  let houseNumberFull := strconv.Itoa (HouseNumber addr) in
  let houseNumberFull :=
    if negb (HouseLetter addr =? "") then houseNumberFull ++ HouseLetter addr
    else houseNumberFull in
  let houseNumberFull :=
    if negb (HouseSuffix addr =? "") then houseNumberFull ++ "-" ++ HouseSuffix addr
    else houseNumberFull in
  let sb := strings.WriteString sb ("  House Number: " ++ houseNumberFull ++ nl) in
  let sb := strings.WriteString sb ("  Postal Code: " ++ PostalCode addr ++ nl) in
  let sb := strings.WriteString sb ("  City: " ++ City addr ++ nl) in
  let sb :=
    if negb (Area addr =? 0)%Z
    then strings.WriteString sb ("  Area: " ++ strconv.Itoa (Area addr) ++ " m²" ++ nl)
    else sb in
  let sb :=
    if (0 <? List.length (UsagePurposes addr))%nat
    then strings.WriteString sb
           ("  Usage Purposes: " ++ strings.Join (UsagePurposes addr) ", " ++ nl)
    else sb in
  let sb :=
    if negb (BuildYear addr =? 0)%Z
    then strings.WriteString sb ("  Build Year: " ++ strconv.Itoa (BuildYear addr) ++ nl)
    else sb in
  let sb :=
    if negb (Latitude addr =? 0)%float && negb (Longitude addr =? 0)%float
    then strings.WriteString sb
           ("  Coordinates (WGS84): " ++ fmt_float64 env (Latitude addr) ++ ", "
              ++ fmt_float64 env (Longitude addr) ++ nl)
    else sb in
  let sb :=
    if negb (X addr =? "") && negb (Y addr =? "")
    then strings.WriteString sb
           ("  Coordinates (Dutch Grid): " ++ X addr ++ ", " ++ Y addr ++ nl)
    else sb in
  let sb := strings.WriteString sb nl in
  sb.

Definition formatAddress (addr : Address) : string :=
  strings.String_ (formatAddress_sb addr).

(** ** The two lookups *)

(** The request URL of [lookupByPostalCode] (the function's first lines, up
    to the call of [http.NewRequestWithContext]). *)
Definition postalCodeRequestURL (postalCode houseNumber houseLetter : string) : string :=
  let postalCode := strings.ReplaceAll postalCode " " "" in
  let requestURL := baseURL ++ "/" ++ postalCode in
  if negb (houseNumber =? "") then
    let requestURL := requestURL ++ ("/" ++ houseNumber) in
    if negb (houseLetter =? "") then requestURL ++ ("/" ++ houseLetter)
    else requestURL
  else requestURL.

(** [postalCode] below is the normalized postal code, the value the URL
    was built from. *)
Definition lookupByPostalCode (postalCode houseNumber houseLetter : string)
  : result (list Address) :=
  let requestURL := postalCodeRequestURL postalCode houseNumber houseLetter in
  let postalCode := strings.ReplaceAll postalCode " " "" in
  match http_NewRequestWithContext env "GET" requestURL with
  | Err err => Err (wrapError ("failed to create request: " ++ Error err) err)
  | Ok req =>
      match http_Do env req with
      | Err err => Err (wrapError ("failed to make request: " ++ Error err) err)
      | Ok resp =>
          if negb (StatusCode resp =? StatusOK)%Z
          then Err (errorString
                      ("API returned status code " ++ strconv.Itoa (StatusCode resp)))
          else
            match json_Decode env (Body resp) with
            | Err err =>
                Err (wrapError ("failed to parse JSON response: " ++ Error err) err)
            | Ok addresses =>
                Ok (map (fun addr => setPostalCode addr postalCode) addresses)
            end
      end
  end.

(** The request URL of [lookupByCoordinates]. *)
Definition coordinatesRequestURL (latitude longitude : float) : string :=
  baseURL ++ "/" ++ fmt_float64 env latitude ++ "/" ++ fmt_float64 env longitude.

(** The [*Address] result is [None] for Go's [nil]. *)
Definition lookupByCoordinates (latitude longitude : float)
  : result (option Address) :=
  let requestURL := coordinatesRequestURL latitude longitude in
  match http_NewRequestWithContext env "GET" requestURL with
  | Err err => Err (wrapError ("failed to create request: " ++ Error err) err)
  | Ok req =>
      match http_Do env req with
      | Err err => Err (wrapError ("failed to make request: " ++ Error err) err)
      | Ok resp =>
          if negb (StatusCode resp =? StatusOK)%Z
          then Err (errorString
                      ("API returned status code " ++ strconv.Itoa (StatusCode resp)))
          else
            match json_Decode env (Body resp) with
            | Err err =>
                Err (wrapError ("failed to parse JSON response: " ++ Error err) err)
            | Ok addresses =>
                match addresses with
                | [] => Ok None
                | first :: _ => Ok (Some first)
                end
            end
      end
  end.

(** ** The tool handlers of registerPostalCodeTools *)

Record lookupByPostalCodeArgs : Type := mkPostalCodeArgs {
  argPostalCode : string;
  argHouseNumber : string;
  argHouseLetter : string
}.

Record lookupByCoordinatesArgs : Type := mkCoordinatesArgs {
  argLatitude : float;
  argLongitude : float
}.

(** [HandleFunc] of the tool [lookup_by_postal_code]. *)
Definition handleLookupByPostalCode (args : lookupByPostalCodeArgs) : mcp.CallToolResult :=
  match lookupByPostalCode (argPostalCode args) (argHouseNumber args) (argHouseLetter args) with
  | Err err =>
      mcp.mkCallToolResult
        [mcp.TextContent ("Error looking up postal code: " ++ Error err)] true
  | Ok addresses =>
      if (List.length addresses =? 0)%nat
      then mcp.mkCallToolResult
             [mcp.TextContent "No addresses found for the given postal code."] false
      else mcp.mkCallToolResult
             (map (fun addr => mcp.TextContent (formatAddress addr)) addresses) false
  end.

(** [HandleFunc] of the tool [lookup_by_coordinates]. *)
Definition handleLookupByCoordinates (args : lookupByCoordinatesArgs) : mcp.CallToolResult :=
  match lookupByCoordinates (argLatitude args) (argLongitude args) with
  | Err err =>
      mcp.mkCallToolResult
        [mcp.TextContent ("Error looking up coordinates: " ++ Error err)] true
  | Ok None =>
      mcp.mkCallToolResult
        [mcp.TextContent "No address found for the given coordinates."] false
  | Ok (Some address) =>
      mcp.mkCallToolResult [mcp.TextContent (formatAddress address)] false
  end.

End Program.

(** ** main: from the flags to the transports *)

(** [url.URL], the two fields [main] sets. *)
Module url.

Record URL : Type := mkURL { Scheme : string; Host : string }.

End url.

(** The package variables the flags are parsed into. *)
Record Flags : Type := mkFlags {
  httpAddr : string;
  useStdio : bool;
  useSSE : bool
}.

(** The flags' default values, as [flag.StringVar] and [flag.BoolVar]
    declare them. *)
Definition defaultFlags : Flags := mkFlags ":8080" true false.

(** [mcp.ServerOption], as [main] builds them. *)
Inductive ServerOption : Type :=
| WithStdioTransport
| WithSSETransport (sseURL : url.URL).

(** What [main] holds when it calls [mcp.NewServer]. *)
Record Setup : Type := mkSetup {
  transports : list string;
  opts : list ServerOption;
  sseURL : url.URL
}.

(** [main] goes on, or [log.Fatalf] ends the process with a message. *)
Inductive startup (A : Type) : Type :=
| Started (a : A)
| Fatal (msg : string).

Arguments Started {A} a.
Arguments Fatal {A} msg.

Section Main.

(** [net.SplitHostPort] and [net.JoinHostPort]. *)
Variable net_SplitHostPort : string -> result (string * string).
Variable net_JoinHostPort : string -> string -> string.

(** [main] from the parsed flags up to the call of [mcp.NewServer]: the
    transports to name in the log, the server options, and the SSE URL. *)
Definition mainSetup (flags : Flags) : startup Setup :=
  let transports : list string := [] in
  let opts : list ServerOption := [] in
  let '(transports, opts) :=
    if useStdio flags
    then ((transports ++ ["stdio"])%list, (opts ++ [WithStdioTransport])%list)
    else (transports, opts) in
  let sseURL := url.mkURL "" "" in
  if useSSE flags then
    let transports := (transports ++ ["sse"])%list in
    let host := "localhost" in
    match net_SplitHostPort (httpAddr flags) with
    | Err err => Fatal ("Failed to split host and port: " ++ Error err)
    | Ok (hostPart, port) =>
        let host := if negb (hostPart =? "") then hostPart else host in
        let sseURL := url.mkURL "http" (net_JoinHostPort host port) in
        let opts := (opts ++ [WithSSETransport sseURL])%list in
        Started (mkSetup transports opts sseURL)
    end
  else Started (mkSetup transports opts sseURL).

End Main.

(** ** Vocabulary of the statements *)

(** The string [s] with its space bytes left out: what the specification
    calls the normalized postal code. *)
Fixpoint withoutSpaces (s : string) : string :=
  match s with
  | EmptyString => EmptyString
  | String c s' =>
      if (c =? " ")%char then withoutSpaces s' else String c (withoutSpaces s')
  end.


(** A chunk written to the builder starts with [label]: the formatter writes
    one chunk per line, so this says that the line with that label was
    emitted. *)
Definition hasLine (label : string) (sb : strings.Builder) : bool :=
  existsb (String.prefix label) sb.

(** A line that [formatAddress] writes only when its field is present. *)
Definition optionalLine (present : bool) (line : string) : strings.Builder :=
  if present then [line] else [].

(** The lines of the optional fields, in the order they are written. *)
Definition optionalLines (env : Env) (addr : Address) : strings.Builder :=
  List.concat
    [optionalLine (negb (Area addr =? 0)%Z)
       ("  Area: " ++ strconv.Itoa (Area addr) ++ " m²" ++ nl);
     optionalLine (0 <? List.length (UsagePurposes addr))%nat
       ("  Usage Purposes: " ++ strings.Join (UsagePurposes addr) ", " ++ nl);
     optionalLine (negb (BuildYear addr =? 0)%Z)
       ("  Build Year: " ++ strconv.Itoa (BuildYear addr) ++ nl);
     optionalLine
       (negb (Latitude addr =? 0)%float && negb (Longitude addr =? 0)%float)
       ("  Coordinates (WGS84): " ++ fmt_float64 env (Latitude addr) ++ ", "
          ++ fmt_float64 env (Longitude addr) ++ nl);
     optionalLine (negb (X addr =? "") && negb (Y addr =? ""))
       ("  Coordinates (Dutch Grid): " ++ X addr ++ ", " ++ Y addr ++ nl)].

(** [s] ends with [suffix]. *)
Definition endsWith (s suffix : string) : Prop := exists p, s = p ++ suffix.

(** Two labels differ at a position that both have. *)
Fixpoint diverge (a b : string) : bool :=
  match a, b with
  | String x a', String y b' => if (x =? y)%char then diverge a' b' else true
  | _, _ => false
  end.

(** The composed house number of [formatAddress]: number, letter, then the
    suffix after a hyphen. *)
Definition composedHouseNumber (addr : Address) : string :=
  strconv.Itoa (HouseNumber addr) ++ HouseLetter addr
    ++ (if HouseSuffix addr =? "" then "" else "-" ++ HouseSuffix addr).

(** The two error conditions of a completed exchange. *)
Definition upstreamError (statusCode : Z) : error :=
  errorString ("API returned status code " ++ strconv.Itoa statusCode).

Definition decodeError (err : error) : error :=
  wrapError ("failed to parse JSON response: " ++ Error err) err.

(** The segments of a URL path: the pieces between its slashes. *)
Fixpoint splitPath (path : string) : list string :=
  match path with
  | EmptyString => [""]
  | String c rest =>
      if (c =? "/")%char then "" :: splitPath rest
      else
        match splitPath rest with
        | [] => [String c ""]
        | seg :: segs => String c seg :: segs
        end
  end.

(** [errors.Unwrap]: the error a [%w] verb wrapped, if any. *)
Definition Unwrap (e : error) : option error :=
  match e with
  | errorString _ => None
  | wrapError _ err => Some err
  end.

(** The text of a line that is written only when its field is present. *)
Definition optionalText (present : bool) (line : string) : string :=
  if present then line else "".

(** The address with another [NumberStatus]. *)
Definition setNumberStatus (addr : Address) (numberStatus : string) : Address :=
  mkAddress (Street addr) (HouseNumber addr) (HouseLetter addr) (HouseSuffix addr)
    (City addr) (PostalCode addr) (Area addr) (UsagePurposes addr) (BuildYear addr)
    numberStatus (Latitude addr) (Longitude addr) (X addr) (Y addr).

(** Two addresses agree on every field but [PostalCode]. *)
Definition sameButPostalCode (a b : Address) : Prop :=
  Street a = Street b /\ HouseNumber a = HouseNumber b
  /\ HouseLetter a = HouseLetter b /\ HouseSuffix a = HouseSuffix b
  /\ City a = City b /\ Area a = Area b
  /\ UsagePurposes a = UsagePurposes b /\ BuildYear a = BuildYear b
  /\ NumberStatus a = NumberStatus b
  /\ Latitude a = Latitude b /\ Longitude a = Longitude b
  /\ X a = X b /\ Y a = Y b.

(** The environment [env] with another JSON decoder. *)
Definition withDecoder (env : Env) (decode : string -> result (list Address)) : Env :=
  mkEnv (fmt_float64 env) (http_NewRequestWithContext env) (http_Do env) decode.

(** The name under which [main] lists the transport of a server option. *)
Definition transportName (opt : ServerOption) : string :=
  match opt with
  | WithStdioTransport => "stdio"
  | WithSSETransport _ => "sse"
  end.

(** Two environments answer alike to a GET of [url]: the same request or
    failure, for that request the same response or failure, and for that
    response's body the same decoding. *)
Definition agreeAt (env env' : Env) (url : string) : Prop :=
  http_NewRequestWithContext env "GET" url = http_NewRequestWithContext env' "GET" url
  /\ forall req,
       http_NewRequestWithContext env "GET" url = Ok req ->
       http_Do env req = http_Do env' req
       /\ forall resp,
            http_Do env req = Ok resp ->
            json_Decode env (Body resp) = json_Decode env' (Body resp).

(** A decimal digit. *)
Definition isDigit (c : ascii) : bool :=
  ((48 <=? nat_of_ascii c) && (nat_of_ascii c <=? 57))%nat.

Fixpoint allDigits (s : string) : bool :=
  match s with
  | EmptyString => true
  | String c s' => isDigit c && allDigits s'
  end.

(** Digits, then possibly a point and one digit or more; [seen] says that a
    digit came before. *)
Fixpoint unsignedDecimal (seen : bool) (s : string) : bool :=
  match s with
  | EmptyString => seen
  | String c s' =>
      if isDigit c then unsignedDecimal true s'
      else if (c =? ".")%char then seen && negb (s' =? "") && allDigits s'
      else false
  end.

(** Decimal form: an optional minus sign, one digit or more, and possibly a
    point followed by one digit or more. *)
Definition plainDecimal (s : string) : bool :=
  match s with
  | EmptyString => false
  | String c s' =>
      if (c =? "-")%char then unsignedDecimal false s' else unsignedDecimal false s
  end.

(** The byte [c] occurs in [s]. *)
Fixpoint occurs (c : ascii) (s : string) : bool :=
  match s with
  | EmptyString => false
  | String c' s' => (c' =? c)%char || occurs c s'
  end.

(** The float is zero, or the decimal exponent of its shortest digits is at
    least -4 and below 6: the values [%v] does not print with an exponent. *)
Definition usesPlainNotation (f : float) : bool :=
  match Prim2SF f with
  | S754_zero _ => true
  | S754_finite _ m e =>
      let exp := (snd (ftoa.shortest m e) - 1)%Z in
      ((-4 <=? exp) && (exp <? 6))%Z
  | _ => false
  end.

(** The white space of JSON. *)
Definition isJSONSpace (c : ascii) : bool :=
  ((c =? " ") || (c =? "009") || (c =? "010") || (c =? "013"))%char.

Fixpoint firstNonSpace (s : string) : option ascii :=
  match s with
  | EmptyString => None
  | String c s' => if isJSONSpace c then firstNonSpace s' else Some c
  end.

Fixpoint lastNonSpace (s : string) : option ascii :=
  match s with
  | EmptyString => None
  | String c s' =>
      match lastNonSpace s' with
      | Some c' => Some c'
      | None => if isJSONSpace c then None else Some c
      end
  end.

(** What every JSON text of an array has: white space apart, it begins with
    an opening bracket and ends with a closing one. A body without it is no
    valid JSON array of address records. *)
Definition hasArrayEnvelope (body : string) : bool :=
  match firstNonSpace body, lastNonSpace body with
  | Some first, Some last => ((first =? "[") && (last =? "]"))%char
  | _, _ => false
  end.

(** ** Concrete environments and addresses *)

Definition quote : string := String "034"%char EmptyString.

Definition zeroAddress : Address :=
  mkAddress "" 0 "" "" "" "" 0 [] 0 "" 0%float 0%float "" "".

Definition damrak : Address :=
  mkAddress "Damrak" 1 "A" "2" "Amsterdam" "9999ZZ" 120
    ["woonfunctie"; "kantoorfunctie"] 1990 "Naamgeving uitgegeven"
    52.375%float 4.875%float "121000" "487000".

(** An address that carries a latitude and no longitude. *)
Definition halfLocated : Address :=
  mkAddress "Dorpsstraat" 12 "" "" "Ede" "6711AA" 0 [] 0 "" 52.5%float 0%float "" "".

(** A stand-in for [%v] on the handful of floats used below, each printed
    as Go prints it; any other value is printed as zero is. *)
Definition table_fmt_float64 (f : float) : string :=
  if (f =? 52.375)%float then "52.375"
  else if (f =? 4.875)%float then "4.875"
  else if (f =? 52.5)%float then "52.5"
  else if (f =? 4.25)%float then "4.25"
  else "0".

(** The JSON text of two address objects that carry a street and a postcode. *)
Definition jsonField (key value : string) : string :=
  quote ++ key ++ quote ++ ":" ++ quote ++ value ++ quote.

Definition bodyTwoAddresses : string :=
  "[{" ++ jsonField "straat" "Damrak" ++ "," ++ jsonField "postcode" "9999ZZ" ++ "},{"
    ++ jsonField "straat" "Rokin" ++ "," ++ jsonField "postcode" "1012KL" ++ "}]".

Definition decodedDamrak : Address :=
  mkAddress "Damrak" 0 "" "" "" "9999ZZ" 0 [] 0 "" 0%float 0%float "" "".

Definition decodedRokin : Address :=
  mkAddress "Rokin" 0 "" "" "" "1012KL" 0 [] 0 "" 0%float 0%float "" "".

(** A decoder that knows three bodies and rejects the rest. *)
Definition table_json_Decode (body : string) : result (list Address) :=
  if body =? "[]" then Ok []
  else if body =? "[{}]" then Ok [zeroAddress]
  else if body =? bodyTwoAddresses then Ok [decodedDamrak; decodedRokin]
  else Err (errorString "invalid character looking for beginning of value").

(** An upstream that answers every request with [status] and [body]. *)
Definition upstreamEnv (status : Z) (body : string) : Env :=
  mkEnv table_fmt_float64
    (fun method url => Ok (mkRequest method url))
    (fun _ => Ok (mkResponse status body))
    table_json_Decode.

(** An environment that refuses every request and reports the method and URL
    it was asked for: it shows which URL a lookup requests. *)
Definition probeEnv : Env :=
  mkEnv table_fmt_float64
    (fun method url => Err (errorString (method ++ " " ++ url)))
    (fun _ => Err (errorString "no network"))
    table_json_Decode.

(** An environment whose requests are created and never answered. *)
Definition offlineEnv : Env :=
  mkEnv table_fmt_float64
    (fun method url => Ok (mkRequest method url))
    (fun _ => Err (errorString "context deadline exceeded"))
    table_json_Decode.

(** A decoder that accepts every body as the empty array. *)
Definition lenient_json_Decode (body : string) : result (list Address) := Ok [].

(** [net.SplitHostPort] on three listen addresses; any other address is
    refused here. *)
Definition table_SplitHostPort (hostport : string) : result (string * string) :=
  if hostport =? ":8080" then Ok ("", "8080")
  else if hostport =? "example.org:9000" then Ok ("example.org", "9000")
  else if hostport =? "8080" then Err (errorString "address 8080: missing port in address")
  else Err (errorString "address not in the table").

(** [net.JoinHostPort] for a host without a colon. *)
Definition plain_JoinHostPort (host port : string) : string := host ++ ":" ++ port.

(** An upstream that answers one URL only, with the empty array. *)
Definition singleURLEnv (url : string) : Env :=
  mkEnv table_fmt_float64
    (fun method url' => Ok (mkRequest method url'))
    (fun req =>
       if URL req =? url then Ok (mkResponse 200 "[]")
       else Err (errorString "no such host"))
    table_json_Decode.

(** The environment [env] with floats rendered as Go's [%v] renders them. *)
Definition goFmtEnv (env : Env) : Env :=
  mkEnv ftoa.FormatFloat (http_NewRequestWithContext env) (http_Do env)
    (json_Decode env).

(** [encoding/json] on two more bodies, as its documentation has it: the
    JSON [null] unmarshals into a slice by setting it to nil, and [Decode]
    reads the next JSON value of its input and leaves what follows unread. *)
Definition doc_json_Decode (body : string) : result (list Address) :=
  if body =? "null" then Ok []
  else if body =? "[] trailing garbage" then Ok []
  else table_json_Decode body.

(** An upstream that answers every request with [status] and [body], read
    by [doc_json_Decode]. *)
Definition upstreamDocEnv (status : Z) (body : string) : Env :=
  withDecoder (upstreamEnv status body) doc_json_Decode.

(** * Properties *)

(** ** Strings *)

Lemma append_assoc (a b c : string) : (a ++ b) ++ c = a ++ (b ++ c).
Proof.
  induction a as [|x a IH]; simpl; [reflexivity|].
  now rewrite IH.
Qed.

Lemma append_empty_r (a : string) : a ++ "" = a.
Proof.
  induction a as [|x a IH]; simpl; [reflexivity|].
  now rewrite IH.
Qed.

Lemma prefix_empty (s : string) : String.prefix "" s = true.
Proof. destruct s; reflexivity. Qed.

Lemma prefix_cons (a b : ascii) (l s : string) :
  String.prefix (String a l) (String b s) = ((a =? b)%char && String.prefix l s)%bool.
Proof.
  cbn [String.prefix].
  destruct (ascii_dec a b) as [->|Hne].
  - now rewrite Ascii.eqb_refl.
  - apply Ascii.eqb_neq in Hne. now rewrite Hne.
Qed.

Lemma prefix_append (l s : string) : String.prefix l (l ++ s) = true.
Proof.
  induction l as [|a l IH]; cbn [append].
  - apply prefix_empty.
  - now rewrite prefix_cons, Ascii.eqb_refl.
Qed.

Lemma prefix_space (c : ascii) (s : string) :
  String.prefix " " (String c s) = (c =? " ")%char.
Proof.
  rewrite prefix_cons, prefix_empty, andb_true_r.
  apply Ascii.eqb_sym.
Qed.

(** On the pattern of one space and the empty replacement, [ReplaceAll]
    is the removal of the space bytes. *)
Lemma ReplaceAll_space (s : string) :
  strings.ReplaceAll s " " "" = withoutSpaces s.
Proof.
  unfold strings.ReplaceAll.
  induction s as [|c s IH]; [reflexivity|].
  cbn [strings.replaceFrom withoutSpaces].
  rewrite prefix_space.
  destruct (c =? " ")%char; cbn [String.length Nat.sub append]; now rewrite IH.
Qed.






(** ** Request URLs *)

(** C4. The request URL of a postal-code lookup is the base URL followed by
    the path [/postalCode] (normalized), then [/houseNumber] only when the
    house number is not empty, then [/houseLetter] only when both the house
    number and the house letter are not empty. "1234AB", "1", "A" gives the
    path [/1234AB/1/A]; with no house number the house letter is not
    appended. The lookup asks [http.NewRequestWithContext] for a GET of
    exactly this URL. *)
Theorem postalCode_request_path :
  (forall pc hn hl,
     postalCodeRequestURL pc hn hl
     = baseURL ++ "/" ++ strings.ReplaceAll pc " " ""
         ++ (if hn =? "" then ""
             else "/" ++ hn ++ (if hl =? "" then "" else "/" ++ hl)))
  /\ postalCodeRequestURL "1234AB" "1" "A" = baseURL ++ "/1234AB/1/A"
  /\ (forall pc hl,
        postalCodeRequestURL pc "" hl = baseURL ++ "/" ++ strings.ReplaceAll pc " " "")
  /\ (forall pc hn hl,
        lookupByPostalCode probeEnv pc hn hl
        = Err (wrapError
                 ("failed to create request: GET " ++ postalCodeRequestURL pc hn hl)
                 (errorString ("GET " ++ postalCodeRequestURL pc hn hl)))).
Proof.
  split; [|split; [|split]].
  - intros pc hn hl. unfold postalCodeRequestURL.
    destruct (hn =? ""); cbn [negb].
    + now rewrite append_empty_r.
    + destruct (hl =? ""); cbn [negb].
      * now rewrite append_empty_r, !append_assoc.
      * now rewrite !append_assoc.
  - reflexivity.
  - intros pc hl. reflexivity.
  - intros pc hn hl. reflexivity.
Qed.

(** C10. The three arguments reach the request URL byte for byte, the postal
    code with its spaces removed and nothing else changed: no byte is
    escaped or rejected. So an argument that holds a slash, a question mark,
    a percent sign or a hash changes the shape of the URL: the postal code
    "1234/AB" alone gives the path [/1234/AB], of two segments where the
    documented shape has one. *)
Theorem postalCode_arguments_embedded_verbatim :
  (forall pc a hn b hl,
     postalCodeRequestURL pc (String a hn) (String b hl)
     = baseURL ++ "/" ++ withoutSpaces pc ++ "/" ++ String a hn ++ "/" ++ String b hl)
  /\ (forall pc a hn,
        postalCodeRequestURL pc (String a hn) ""
        = baseURL ++ "/" ++ withoutSpaces pc ++ "/" ++ String a hn)
  /\ (exists path,
        postalCodeRequestURL "1234AB" "" "" = baseURL ++ path
        /\ splitPath path = [""; "1234AB"])
  /\ (exists path,
        postalCodeRequestURL "1234/AB" "" "" = baseURL ++ path
        /\ splitPath path = [""; "1234"; "AB"])
  /\ postalCodeRequestURL "12 34 AB" "1?x=%2F" "#top"
     = baseURL ++ "/1234AB/1?x=%2F/#top".
Proof.
  split; [|split; [|split; [|split]]].
  - intros pc a hn b hl. unfold postalCodeRequestURL.
    rewrite ReplaceAll_space. cbn [String.eqb negb].
    now rewrite !append_assoc.
  - intros pc a hn. unfold postalCodeRequestURL.
    rewrite ReplaceAll_space. cbn [String.eqb negb].
    now rewrite !append_assoc.
  - exists "/1234AB". split; reflexivity.
  - exists "/1234/AB". split; reflexivity.
  - reflexivity.
Qed.

(** ** The lookups *)

Section Lookups.

Variable env : Env.

(** The lookups after a completed exchange: the request was created and the
    client returned a response. What is left is the status check and the
    decoding. *)
Lemma lookupByPostalCode_exchanged pc hn hl req resp :
  http_NewRequestWithContext env "GET" (postalCodeRequestURL pc hn hl) = Ok req ->
  http_Do env req = Ok resp ->
  lookupByPostalCode env pc hn hl
  = if negb (StatusCode resp =? StatusOK)%Z
    then Err (upstreamError (StatusCode resp))
    else match json_Decode env (Body resp) with
         | Err err => Err (decodeError err)
         | Ok addresses =>
             Ok (map (fun addr => setPostalCode addr (strings.ReplaceAll pc " " ""))
                   addresses)
         end.
Proof.
  intros Hreq Hdo. unfold lookupByPostalCode. now rewrite Hreq, Hdo.
Qed.

Lemma lookupByCoordinates_exchanged lat lon req resp :
  http_NewRequestWithContext env "GET" (coordinatesRequestURL env lat lon) = Ok req ->
  http_Do env req = Ok resp ->
  lookupByCoordinates env lat lon
  = if negb (StatusCode resp =? StatusOK)%Z
    then Err (upstreamError (StatusCode resp))
    else match json_Decode env (Body resp) with
         | Err err => Err (decodeError err)
         | Ok addresses => Ok (hd_error addresses)
         end.
Proof.
  intros Hreq Hdo. unfold lookupByCoordinates. rewrite Hreq, Hdo.
  destruct (negb (StatusCode resp =? StatusOK)%Z); [reflexivity|].
  destruct (json_Decode env (Body resp)) as [[|first rest]|err]; reflexivity.
Qed.

Lemma map_setPostalCode_Forall (postalCode : string) (addresses : list Address) :
  Forall (fun addr => PostalCode addr = postalCode)
    (map (fun addr => setPostalCode addr postalCode) addresses).
Proof.
  induction addresses as [|addr rest IH]; simpl; constructor; auto.
Qed.

(** C1. Whenever a postal-code lookup succeeds, every address of its result
    has [PostalCode] equal to the input postal code with its spaces removed,
    whatever environment produced the result: the result is the list the
    upstream JSON decoded to, with the [PostalCode] of each address replaced,
    whatever [postcode] it carried. *)
Theorem lookupByPostalCode_overwrites_postalCode pc hn hl addresses :
  lookupByPostalCode env pc hn hl = Ok addresses ->
  Forall (fun addr => PostalCode addr = strings.ReplaceAll pc " " "") addresses
  /\ exists req resp upstream,
       http_Do env req = Ok resp
       /\ json_Decode env (Body resp) = Ok upstream
       /\ addresses
          = map (fun addr => setPostalCode addr (strings.ReplaceAll pc " " "")) upstream.
Proof.
  unfold lookupByPostalCode.
  destruct (http_NewRequestWithContext env "GET" _) as [req|err]; [|discriminate].
  destruct (http_Do env req) as [resp|err] eqn:Hdo; [|discriminate].
  destruct (negb (StatusCode resp =? StatusOK)%Z); [discriminate|].
  destruct (json_Decode env (Body resp)) as [upstream|err] eqn:Hdecode; [|discriminate].
  intros [= <-]. split.
  - apply map_setPostalCode_Forall.
  - exists req, resp, upstream. auto.
Qed.

(** C2. A coordinate lookup whose upstream response (status 200) decodes to
    a list of addresses gives a tool result that is not marked as an error
    and holds exactly one text: for a non-empty list the formatted first
    address, for the empty list the message "No address found for the given
    coordinates.". *)
Theorem handleLookupByCoordinates_first_only lat lon req resp addresses :
  http_NewRequestWithContext env "GET" (coordinatesRequestURL env lat lon) = Ok req ->
  http_Do env req = Ok resp ->
  StatusCode resp = StatusOK ->
  json_Decode env (Body resp) = Ok addresses ->
  handleLookupByCoordinates env (mkCoordinatesArgs lat lon)
  = match addresses with
    | first :: _ =>
        mcp.mkCallToolResult [mcp.TextContent (formatAddress env first)] false
    | [] =>
        mcp.mkCallToolResult
          [mcp.TextContent "No address found for the given coordinates."] false
    end.
Proof.
  intros Hreq Hdo Hstatus Hdecode. unfold handleLookupByCoordinates.
  cbn [argLatitude argLongitude].
  rewrite (lookupByCoordinates_exchanged _ _ _ _ Hreq Hdo), Hstatus, Hdecode.
  cbn [StatusOK Z.eqb Pos.eqb negb].
  destruct addresses; reflexivity.
Qed.

Lemma handleLookupByPostalCode_Err pc hn hl e :
  lookupByPostalCode env pc hn hl = Err e ->
  handleLookupByPostalCode env (mkPostalCodeArgs pc hn hl)
  = mcp.mkCallToolResult
      [mcp.TextContent ("Error looking up postal code: " ++ Error e)] true.
Proof.
  intros H. unfold handleLookupByPostalCode.
  cbn [argPostalCode argHouseNumber argHouseLetter]. now rewrite H.
Qed.

Lemma handleLookupByCoordinates_Err lat lon e :
  lookupByCoordinates env lat lon = Err e ->
  handleLookupByCoordinates env (mkCoordinatesArgs lat lon)
  = mcp.mkCallToolResult
      [mcp.TextContent ("Error looking up coordinates: " ++ Error e)] true.
Proof.
  intros H. unfold handleLookupByCoordinates.
  cbn [argLatitude argLongitude]. now rewrite H.
Qed.

(** What a completed exchange leaves to decide: the outcome is an error
    exactly when the status is not 200 or the decoder fails. *)
Lemma exchanged_fails_iff {B : Type} (resp : Response) (f : list Address -> B)
    (r : result B) :
  r = (if negb (StatusCode resp =? StatusOK)%Z
       then Err (upstreamError (StatusCode resp))
       else match json_Decode env (Body resp) with
            | Err err => Err (decodeError err)
            | Ok addresses => Ok (f addresses)
            end) ->
  ((exists e, r = Err e)
   <-> (StatusCode resp <> StatusOK \/ exists e, json_Decode env (Body resp) = Err e))
  /\ (StatusCode resp <> StatusOK -> r = Err (upstreamError (StatusCode resp)))
  /\ (forall e, StatusCode resp = StatusOK -> json_Decode env (Body resp) = Err e ->
        r = Err (decodeError e))
  /\ (forall addresses,
        StatusCode resp = StatusOK -> json_Decode env (Body resp) = Ok addresses ->
        r = Ok (f addresses)).
Proof.
  intros ->.
  destruct (Z.eqb_spec (StatusCode resp) StatusOK) as [Heq|Hne]; cbn [negb].
  - destruct (json_Decode env (Body resp)) as [addresses|err].
    + split; [split|split; [|split]].
      * intros [e [=]].
      * intros [Hne|[e [=]]]. now elim Hne.
      * intros Hne. now elim Hne.
      * intros e _ [=].
      * intros addresses' _ [= <-]. reflexivity.
    + split; [split|split; [|split]].
      * intros _. right. now exists err.
      * intros _. now exists (decodeError err).
      * intros Hne. now elim Hne.
      * intros e _ [= ->]. reflexivity.
      * intros addresses _ [=].
  - split; [split|split; [|split]].
    + intros _. now left.
    + intros _. now exists (upstreamError (StatusCode resp)).
    + reflexivity.
    + intros e Heq. now elim Hne.
    + intros addresses Heq. now elim Hne.
Qed.

(** C3, as the code has it. Once the HTTP exchange of a lookup (postal-code
    or coordinate) has completed with a response, the lookup fails if and
    only if the status is not 200 or the JSON decoder returns an error on
    the body. A status other than 200 gives the error "API returned status
    code N" with N the status; a decoder error gives the error "failed to
    parse JSON response: ..." wrapping the decoder's. Every failure of a
    lookup is returned by its handler as a tool result marked as an error
    whose text is the error's. Whatever body the decoder accepts under
    status 200, a JSON array or not, the lookup succeeds on it with the
    addresses the decoder gave. *)
Theorem lookup_fails_iff_status_or_decode req resp :
  http_Do env req = Ok resp ->
  (forall pc hn hl,
     http_NewRequestWithContext env "GET" (postalCodeRequestURL pc hn hl) = Ok req ->
     ((exists e, lookupByPostalCode env pc hn hl = Err e)
      <-> (StatusCode resp <> StatusOK
           \/ exists e, json_Decode env (Body resp) = Err e))
     /\ (StatusCode resp <> StatusOK ->
         lookupByPostalCode env pc hn hl = Err (upstreamError (StatusCode resp)))
     /\ (forall e, StatusCode resp = StatusOK -> json_Decode env (Body resp) = Err e ->
           lookupByPostalCode env pc hn hl = Err (decodeError e))
     /\ (forall e, lookupByPostalCode env pc hn hl = Err e ->
           handleLookupByPostalCode env (mkPostalCodeArgs pc hn hl)
           = mcp.mkCallToolResult
               [mcp.TextContent ("Error looking up postal code: " ++ Error e)] true)
     /\ (forall addresses,
           StatusCode resp = StatusOK -> json_Decode env (Body resp) = Ok addresses ->
           lookupByPostalCode env pc hn hl
           = Ok (map (fun addr => setPostalCode addr (strings.ReplaceAll pc " " ""))
                   addresses)))
  /\ (forall lat lon,
        http_NewRequestWithContext env "GET" (coordinatesRequestURL env lat lon) = Ok req ->
        ((exists e, lookupByCoordinates env lat lon = Err e)
         <-> (StatusCode resp <> StatusOK
              \/ exists e, json_Decode env (Body resp) = Err e))
        /\ (StatusCode resp <> StatusOK ->
            lookupByCoordinates env lat lon = Err (upstreamError (StatusCode resp)))
        /\ (forall e, StatusCode resp = StatusOK -> json_Decode env (Body resp) = Err e ->
              lookupByCoordinates env lat lon = Err (decodeError e))
        /\ (forall e, lookupByCoordinates env lat lon = Err e ->
              handleLookupByCoordinates env (mkCoordinatesArgs lat lon)
              = mcp.mkCallToolResult
                  [mcp.TextContent ("Error looking up coordinates: " ++ Error e)] true)
        /\ (forall addresses,
              StatusCode resp = StatusOK -> json_Decode env (Body resp) = Ok addresses ->
              lookupByCoordinates env lat lon = Ok (hd_error addresses))).
Proof.
  intros Hdo. split.
  - intros pc hn hl Hreq.
    pose proof (lookupByPostalCode_exchanged _ _ _ _ _ Hreq Hdo) as Hshape.
    destruct (exchanged_fails_iff resp _ _ Hshape) as (Hiff & Hstatus & Hdecode & Hok).
    split; [exact Hiff|]. split; [exact Hstatus|]. split; [exact Hdecode|].
    split; [apply handleLookupByPostalCode_Err|exact Hok].
  - intros lat lon Hreq.
    pose proof (lookupByCoordinates_exchanged _ _ _ _ Hreq Hdo) as Hshape.
    destruct (exchanged_fails_iff resp _ _ Hshape) as (Hiff & Hstatus & Hdecode & Hok).
    split; [exact Hiff|]. split; [exact Hstatus|]. split; [exact Hdecode|].
    split; [apply handleLookupByCoordinates_Err|exact Hok].
Qed.

(** C8. A postal-code lookup whose upstream response (status 200) decodes to
    the empty list gives the tool result with the single text "No addresses
    found for the given postal code.", not marked as an error; no failed
    lookup (upstream error, decode error or any other) gives that result. *)
Theorem handleLookupByPostalCode_empty_is_informational pc hn hl req resp :
  http_NewRequestWithContext env "GET" (postalCodeRequestURL pc hn hl) = Ok req ->
  http_Do env req = Ok resp ->
  StatusCode resp = StatusOK ->
  json_Decode env (Body resp) = Ok [] ->
  handleLookupByPostalCode env (mkPostalCodeArgs pc hn hl)
  = mcp.mkCallToolResult
      [mcp.TextContent "No addresses found for the given postal code."] false
  /\ mcp.IsError (handleLookupByPostalCode env (mkPostalCodeArgs pc hn hl)) = false
  /\ (forall env' pc' hn' hl' e,
        lookupByPostalCode env' pc' hn' hl' = Err e ->
        mcp.IsError (handleLookupByPostalCode env' (mkPostalCodeArgs pc' hn' hl')) = true
        /\ handleLookupByPostalCode env' (mkPostalCodeArgs pc' hn' hl')
           <> handleLookupByPostalCode env (mkPostalCodeArgs pc hn hl)).
Proof.
  intros Hreq Hdo Hstatus Hdecode.
  assert (Hres : handleLookupByPostalCode env (mkPostalCodeArgs pc hn hl)
                 = mcp.mkCallToolResult
                     [mcp.TextContent "No addresses found for the given postal code."]
                     false).
  { unfold handleLookupByPostalCode.
    cbn [argPostalCode argHouseNumber argHouseLetter].
    rewrite (lookupByPostalCode_exchanged _ _ _ _ _ Hreq Hdo), Hstatus, Hdecode.
    reflexivity. }
  rewrite Hres. split; [reflexivity|split; [reflexivity|]].
  intros env' pc' hn' hl' e Hfail.
  unfold handleLookupByPostalCode.
  cbn [argPostalCode argHouseNumber argHouseLetter]. rewrite Hfail.
  split; [reflexivity|discriminate].
Qed.

End Lookups.

(** ** formatAddress *)

Lemma prefix_diverge (a b s : string) :
  diverge a b = true -> String.prefix a (b ++ s) = false.
Proof.
  revert b. induction a as [|x a IH]; intros [|y b]; cbn [diverge append];
    try discriminate.
  rewrite prefix_cons. destruct (x =? y)%char; [|reflexivity].
  intros H. now rewrite IH.
Qed.

Lemma String__app (sb1 sb2 : strings.Builder) :
  strings.String_ (sb1 ++ sb2)%list = strings.String_ sb1 ++ strings.String_ sb2.
Proof.
  induction sb1 as [|chunk sb1 IH]; cbn [strings.String_ app append]; [reflexivity|].
  now rewrite IH, append_assoc.
Qed.

Lemma hasLine_app (label : string) (sb1 sb2 : strings.Builder) :
  hasLine label (sb1 ++ sb2)%list = hasLine label sb1 || hasLine label sb2.
Proof. apply existsb_app. Qed.

Lemma hasLine_optionalLine (label : string) (present : bool) (line : string) :
  hasLine label (optionalLine present line) = present && String.prefix label line.
Proof.
  destruct present; cbn [optionalLine hasLine existsb andb]; [|reflexivity].
  apply orb_false_r.
Qed.

Lemma hasLine_cons (label chunk : string) (sb : strings.Builder) :
  hasLine label (chunk :: sb) = String.prefix label chunk || hasLine label sb.
Proof. reflexivity. Qed.

Lemma endsWith_refl (suffix : string) : endsWith suffix suffix.
Proof. now exists "". Qed.

Lemma endsWith_append_l (a s suffix : string) :
  endsWith s suffix -> endsWith (a ++ s) suffix.
Proof.
  intros [p ->]. exists (a ++ p). now rewrite append_assoc.
Qed.

Lemma String__endsWith (suffix : string) (sb : strings.Builder) :
  sb <> [] -> Forall (fun chunk => endsWith chunk suffix) sb ->
  endsWith (strings.String_ sb) suffix.
Proof.
  induction sb as [|chunk [|next rest] IH]; intros Hne Hall; [now elim Hne| |].
  - inversion_clear Hall. cbn [strings.String_]. now rewrite append_empty_r.
  - inversion_clear Hall.
    change (endsWith (chunk ++ strings.String_ (next :: rest)) suffix).
    apply endsWith_append_l, IH; [discriminate|assumption].
Qed.

Lemma optionalLine_endsWith (present : bool) (line suffix : string) :
  endsWith line suffix ->
  Forall (fun chunk => endsWith chunk suffix) (optionalLine present line).
Proof.
  intros H. destruct present; cbn [optionalLine]; auto.
Qed.

Ltac ends_with_nl := repeat apply endsWith_append_l; apply endsWith_refl.

Section Formatting.

Variable env : Env.

Lemma houseNumberFull_composed (addr : Address) :
  (if negb (HouseSuffix addr =? "")
   then (if negb (HouseLetter addr =? "")
         then strconv.Itoa (HouseNumber addr) ++ HouseLetter addr
         else strconv.Itoa (HouseNumber addr)) ++ "-" ++ HouseSuffix addr
   else (if negb (HouseLetter addr =? "")
         then strconv.Itoa (HouseNumber addr) ++ HouseLetter addr
         else strconv.Itoa (HouseNumber addr)))
  = composedHouseNumber addr.
Proof.
  unfold composedHouseNumber.
  destruct (String.eqb_spec (HouseLetter addr) "") as [->|_]; cbn [negb];
    destruct (HouseSuffix addr =? ""); cbn [negb];
    now rewrite ?append_empty_r, ?append_assoc.
Qed.

(** The chunks [formatAddress] writes: four lines, the optional lines, and a
    line feed. *)
Lemma formatAddress_sb_chunks (addr : Address) :
  formatAddress_sb env addr
  = ("  Street: " ++ Street addr ++ nl)
      :: ("  House Number: " ++ composedHouseNumber addr ++ nl)
      :: ("  Postal Code: " ++ PostalCode addr ++ nl)
      :: ("  City: " ++ City addr ++ nl)
      :: (optionalLines env addr ++ [nl])%list.
Proof.
  unfold formatAddress_sb. cbv zeta.
  rewrite (houseNumberFull_composed addr).
  unfold optionalLines.
  destruct (negb (Area addr =? 0)%Z), (0 <? List.length (UsagePurposes addr))%nat,
    (negb (BuildYear addr =? 0)%Z),
    (negb (Latitude addr =? 0)%float && negb (Longitude addr =? 0)%float),
    (negb (X addr =? "") && negb (Y addr =? "")); reflexivity.
Qed.

Lemma optionalLines_endsWith (addr : Address) :
  Forall (fun chunk => endsWith chunk nl) (optionalLines env addr).
Proof.
  unfold optionalLines. cbn [List.concat].
  repeat (apply Forall_app; split); try apply Forall_nil;
    apply optionalLine_endsWith; ends_with_nl.
Qed.

Ltac line_labels :=
  rewrite formatAddress_sb_chunks; unfold optionalLines; cbn [List.concat];
  rewrite !hasLine_cons, !hasLine_app, !hasLine_optionalLine, !hasLine_cons;
  rewrite ?prefix_append;
  rewrite ?prefix_diverge by reflexivity;
  cbn [hasLine existsb andb orb];
  rewrite ?andb_true_r, ?andb_false_r, ?orb_false_r.

(** C6. [formatAddress] is a function of the address alone (and of how
    [fmt] prints a float): it has a value for every address and no error
    result. It writes the Street, House Number (the composed one), Postal
    Code and City lines first, for every address; then only lines of
    optional fields; then a line feed. The Area line is written exactly when
    the area is not 0, the Usage Purposes line exactly when the sequence is
    not empty, the Build Year line exactly when the year is not 0. The text
    ends with a line feed after the last line's own: a trailing blank line.
    An address whose optional fields all hold their zero value formats to
    the four lines and the blank line, and nothing else. *)
Theorem formatAddress_lines (addr : Address) :
  (exists optional,
     formatAddress_sb env addr
     = ("  Street: " ++ Street addr ++ nl)
         :: ("  House Number: " ++ composedHouseNumber addr ++ nl)
         :: ("  Postal Code: " ++ PostalCode addr ++ nl)
         :: ("  City: " ++ City addr ++ nl)
         :: (optional ++ [nl])%list)
  /\ hasLine "  Street: " (formatAddress_sb env addr) = true
  /\ hasLine "  House Number: " (formatAddress_sb env addr) = true
  /\ hasLine "  Postal Code: " (formatAddress_sb env addr) = true
  /\ hasLine "  City: " (formatAddress_sb env addr) = true
  /\ hasLine "  Area: " (formatAddress_sb env addr) = negb (Area addr =? 0)%Z
  /\ hasLine "  Usage Purposes: " (formatAddress_sb env addr)
     = match UsagePurposes addr with [] => false | _ :: _ => true end
  /\ hasLine "  Build Year: " (formatAddress_sb env addr) = negb (BuildYear addr =? 0)%Z
  /\ formatAddress env addr = strings.String_ (formatAddress_sb env addr)
  /\ endsWith (formatAddress env addr) (nl ++ nl)
  /\ (forall street number letter suffix city postalCode status,
        formatAddress env
          (mkAddress street number letter suffix city postalCode 0 [] 0 status
             0%float 0%float "" "")
        = ("  Street: " ++ street ++ nl)
            ++ ("  House Number: "
                  ++ (strconv.Itoa number ++ letter
                        ++ (if suffix =? "" then "" else "-" ++ suffix)) ++ nl)
            ++ ("  Postal Code: " ++ postalCode ++ nl)
            ++ ("  City: " ++ city ++ nl)
            ++ nl).
Proof.
  split; [|repeat split].
  - exists (optionalLines env addr). apply formatAddress_sb_chunks.
  - line_labels. reflexivity.
  - line_labels. reflexivity.
  - line_labels. reflexivity.
  - line_labels. reflexivity.
  - line_labels. reflexivity.
  - line_labels. now destruct (UsagePurposes addr).
  - line_labels. reflexivity.
  - unfold formatAddress. rewrite formatAddress_sb_chunks.
    rewrite !app_comm_cons, String__app.
    destruct (String__endsWith nl
                (("  Street: " ++ Street addr ++ nl)
                   :: ("  House Number: " ++ composedHouseNumber addr ++ nl)
                   :: ("  Postal Code: " ++ PostalCode addr ++ nl)
                   :: ("  City: " ++ City addr ++ nl)
                   :: optionalLines env addr)) as [p Hp].
    + discriminate.
    + repeat (apply Forall_cons; [ends_with_nl|]). apply optionalLines_endsWith.
    + rewrite Hp. exists p. cbn [strings.String_].
      now rewrite append_empty_r, append_assoc.
  - intros street number letter suffix city postalCode status.
    unfold formatAddress. rewrite formatAddress_sb_chunks.
    unfold optionalLines, composedHouseNumber.
    cbn [Area UsagePurposes BuildYear Latitude Longitude X Y Street HouseNumber
           HouseLetter HouseSuffix PostalCode City].
    change (0 =? 0)%float with true.
    cbn [Z.eqb List.length Nat.ltb Nat.leb negb andb String.eqb optionalLine
           List.concat app strings.String_].
    now rewrite append_empty_r.
Qed.

(** C7, as the code has it. The WGS84 coordinates line is written exactly
    when the latitude and the longitude are both not zero: it is left out
    as soon as one of the two is zero, not only when both are. *)
Theorem formatAddress_WGS84_line (addr : Address) :
  hasLine "  Coordinates (WGS84): " (formatAddress_sb env addr)
  = negb (Latitude addr =? 0)%float && negb (Longitude addr =? 0)%float
  /\ (hasLine "  Coordinates (WGS84): " (formatAddress_sb env addr) = false
      <-> ((Latitude addr =? 0)%float = true \/ (Longitude addr =? 0)%float = true)).
Proof.
  assert (H : hasLine "  Coordinates (WGS84): " (formatAddress_sb env addr)
              = negb (Latitude addr =? 0)%float && negb (Longitude addr =? 0)%float).
  { line_labels. reflexivity. }
  split; [exact H|]. rewrite H.
  destruct (Latitude addr =? 0)%float, (Longitude addr =? 0)%float; cbn; intuition congruence.
Qed.

End Formatting.

(** The request URL of a coordinate lookup is the base URL, then the
    latitude, then the longitude, each as [%v] prints it and each after a
    slash; the lookup asks for a GET of exactly this URL. *)
Lemma coordinates_request_path :
  (forall env lat lon,
     coordinatesRequestURL env lat lon
     = baseURL ++ "/" ++ fmt_float64 env lat ++ "/" ++ fmt_float64 env lon)
  /\ (forall lat lon,
        lookupByCoordinates probeEnv lat lon
        = Err (wrapError
                 ("failed to create request: GET "
                    ++ coordinatesRequestURL probeEnv lat lon)
                 (errorString ("GET " ++ coordinatesRequestURL probeEnv lat lon))))
  /\ coordinatesRequestURL probeEnv 52.5%float 4.25%float = baseURL ++ "/52.5/4.25".
Proof.
  repeat split.
Qed.

(** ** The theorems at concrete inputs *)

(** An address with every field present. *)
Example formatAddress_damrak :
  formatAddress (upstreamEnv 200 "[]") damrak
  = "  Street: Damrak" ++ nl
      ++ "  House Number: 1A-2" ++ nl
      ++ "  Postal Code: 9999ZZ" ++ nl
      ++ "  City: Amsterdam" ++ nl
      ++ "  Area: 120 m²" ++ nl
      ++ "  Usage Purposes: woonfunctie, kantoorfunctie" ++ nl
      ++ "  Build Year: 1990" ++ nl
      ++ "  Coordinates (WGS84): 52.375, 4.875" ++ nl
      ++ "  Coordinates (Dutch Grid): 121000, 487000" ++ nl
      ++ nl.
Proof. reflexivity. Qed.

(** Upstream answers "1234 AB" with two addresses of other postcodes; both
    come back with the postal code "1234AB". *)
Lemma lookupByPostalCode_overwrites_postalCode_example :
  lookupByPostalCode (upstreamEnv 200 bodyTwoAddresses) "1234 AB" "" ""
  = Ok [setPostalCode decodedDamrak "1234AB"; setPostalCode decodedRokin "1234AB"]
  /\ Forall (fun addr => PostalCode addr = "1234AB")
       [setPostalCode decodedDamrak "1234AB"; setPostalCode decodedRokin "1234AB"].
Proof.
  split; [reflexivity|].
  exact (proj1 (lookupByPostalCode_overwrites_postalCode
                  (upstreamEnv 200 bodyTwoAddresses) "1234 AB" "" ""
                  [setPostalCode decodedDamrak "1234AB";
                   setPostalCode decodedRokin "1234AB"] eq_refl)).
Defined.

(** Upstream answers a coordinate lookup with two addresses; the result
    holds the first one only. *)
Lemma handleLookupByCoordinates_first_only_example :
  handleLookupByCoordinates (upstreamEnv 200 bodyTwoAddresses)
    (mkCoordinatesArgs 52.5%float 4.25%float)
  = mcp.mkCallToolResult
      [mcp.TextContent (formatAddress (upstreamEnv 200 bodyTwoAddresses) decodedDamrak)]
      false.
Proof.
  exact (handleLookupByCoordinates_first_only
           (upstreamEnv 200 bodyTwoAddresses) 52.5%float 4.25%float
           (mkRequest "GET" (baseURL ++ "/52.5/4.25"))
           (mkResponse 200 bodyTwoAddresses)
           [decodedDamrak; decodedRokin] eq_refl eq_refl eq_refl eq_refl).
Defined.

(** Upstream answers with status 500: the lookup fails with the status in
    its message and the tool result is marked as an error. Upstream answers
    with status 200 and a body the decoder rejects: the lookup fails with
    the decoder's error wrapped, and the coordinate handler marks its result
    as an error. *)
Lemma lookup_fails_iff_status_or_decode_example :
  (lookupByPostalCode (upstreamEnv 500 "[]") "1234AB" "" ""
   = Err (errorString "API returned status code 500")
   /\ handleLookupByPostalCode (upstreamEnv 500 "[]") (mkPostalCodeArgs "1234AB" "" "")
      = mcp.mkCallToolResult
          [mcp.TextContent "Error looking up postal code: API returned status code 500"]
          true)
  /\ (lookupByCoordinates (upstreamEnv 200 "<html>") 52.5%float 4.25%float
      = Err (decodeError (errorString "invalid character looking for beginning of value"))
      /\ handleLookupByCoordinates (upstreamEnv 200 "<html>")
           (mkCoordinatesArgs 52.5%float 4.25%float)
         = mcp.mkCallToolResult
             [mcp.TextContent
                ("Error looking up coordinates: failed to parse JSON response: "
                   ++ "invalid character looking for beginning of value")]
             true).
Proof.
  split.
  - destruct (lookup_fails_iff_status_or_decode (upstreamEnv 500 "[]")
                (mkRequest "GET" (baseURL ++ "/1234AB")) (mkResponse 500 "[]") eq_refl)
      as [Hpostal _].
    destruct (Hpostal "1234AB" "" "" eq_refl) as (_ & Hstatus & _ & Hhandler & _).
    assert (Hne : StatusCode (mkResponse 500 "[]") <> StatusOK) by discriminate.
    split.
    + exact (Hstatus Hne).
    + exact (Hhandler _ (Hstatus Hne)).
  - destruct (lookup_fails_iff_status_or_decode (upstreamEnv 200 "<html>")
                (mkRequest "GET" (baseURL ++ "/52.5/4.25")) (mkResponse 200 "<html>")
                eq_refl)
      as [_ Hcoordinates].
    destruct (Hcoordinates 52.5%float 4.25%float eq_refl)
      as (_ & _ & Hdecode & Hhandler & _).
    split.
    + exact (Hdecode _ eq_refl eq_refl).
    + exact (Hhandler _ (Hdecode _ eq_refl eq_refl)).
Defined.

(** Upstream answers with status 200 and the body [null], or an array
    followed by other text: neither body is a JSON array, and the lookups
    succeed with no address. *)
Lemma lookup_succeeds_on_non_array_body :
  hasArrayEnvelope "null" = false
  /\ lookupByPostalCode (upstreamDocEnv 200 "null") "1234AB" "" "" = Ok []
  /\ handleLookupByPostalCode (upstreamDocEnv 200 "null") (mkPostalCodeArgs "1234AB" "" "")
     = mcp.mkCallToolResult
         [mcp.TextContent "No addresses found for the given postal code."] false
  /\ lookupByCoordinates (upstreamDocEnv 200 "null") 52.5%float 4.25%float = Ok None
  /\ hasArrayEnvelope "[] trailing garbage" = false
  /\ lookupByPostalCode (upstreamDocEnv 200 "[] trailing garbage") "1234AB" "" "" = Ok [].
Proof.
  repeat split.
Qed.

(** Upstream answers "1234 AB" with the empty list. *)
Lemma handleLookupByPostalCode_empty_is_informational_example :
  handleLookupByPostalCode (upstreamEnv 200 "[]") (mkPostalCodeArgs "1234 AB" "" "")
  = mcp.mkCallToolResult
      [mcp.TextContent "No addresses found for the given postal code."] false.
Proof.
  exact (proj1 (handleLookupByPostalCode_empty_is_informational
                  (upstreamEnv 200 "[]") "1234 AB" "" ""
                  (mkRequest "GET" (baseURL ++ "/1234AB")) (mkResponse 200 "[]")
                  eq_refl eq_refl eq_refl eq_refl)).
Defined.

(** An address with latitude 52.5 and longitude 0: the pair is not (0, 0),
    and the WGS84 line is not written. *)
Lemma formatAddress_WGS84_line_not_only_origin :
  ((Latitude halfLocated =? 0)%float && (Longitude halfLocated =? 0)%float) = false
  /\ hasLine "  Coordinates (WGS84): "
       (formatAddress_sb (upstreamEnv 200 "[]") halfLocated) = false.
Proof.
  split; reflexivity.
Qed.

(** * Further properties of the program *)

(** ** The lookups beyond the status check *)

Section LookupResults.

Variable env : Env.

Lemma setPostalCode_sameButPostalCode (addr : Address) (postalCode : string) :
  sameButPostalCode (setPostalCode addr postalCode) addr.
Proof. repeat split. Qed.

(** X1. A postal-code lookup succeeds only on a response with status 200 whose
    body decodes; its result has the length and the order of the decoded
    list, and each address differs from the upstream one at most in
    [PostalCode]. *)
Theorem lookupByPostalCode_changes_only_postalCode pc hn hl addresses :
  lookupByPostalCode env pc hn hl = Ok addresses ->
  exists req resp upstream,
    http_NewRequestWithContext env "GET" (postalCodeRequestURL pc hn hl) = Ok req
    /\ http_Do env req = Ok resp
    /\ StatusCode resp = StatusOK
    /\ json_Decode env (Body resp) = Ok upstream
    /\ List.length addresses = List.length upstream
    /\ Forall2 sameButPostalCode addresses upstream.
Proof.
  unfold lookupByPostalCode.
  destruct (http_NewRequestWithContext env "GET" _) as [req|err] eqn:Hreq; [|discriminate].
  destruct (http_Do env req) as [resp|err] eqn:Hdo; [|discriminate].
  destruct (Z.eqb_spec (StatusCode resp) StatusOK) as [Hstatus|_]; [|discriminate].
  cbn [negb].
  destruct (json_Decode env (Body resp)) as [upstream|err] eqn:Hdecode; [|discriminate].
  intros [= <-]. exists req, resp, upstream.
  repeat (split; [assumption || reflexivity|]). split.
  - apply length_map.
  - clear Hdecode. induction upstream as [|addr rest IH]; cbn [map]; constructor.
    + apply setPostalCode_sameButPostalCode.
    + exact IH.
Qed.

(** X2. A coordinate lookup succeeds only on a response with status 200 whose
    body decodes; its result is the first decoded address as upstream
    supplied it ([PostalCode] included), or nil for the empty list; the
    addresses after the first play no part. *)
Theorem lookupByCoordinates_returns_first_unchanged lat lon found :
  lookupByCoordinates env lat lon = Ok found ->
  exists req resp upstream,
    http_NewRequestWithContext env "GET" (coordinatesRequestURL env lat lon) = Ok req
    /\ http_Do env req = Ok resp
    /\ StatusCode resp = StatusOK
    /\ json_Decode env (Body resp) = Ok upstream
    /\ found = hd_error upstream.
Proof.
  unfold lookupByCoordinates.
  destruct (http_NewRequestWithContext env "GET" _) as [req|err] eqn:Hreq; [|discriminate].
  destruct (http_Do env req) as [resp|err] eqn:Hdo; [|discriminate].
  destruct (Z.eqb_spec (StatusCode resp) StatusOK) as [Hstatus|_]; [|discriminate].
  cbn [negb].
  destruct (json_Decode env (Body resp)) as [upstream|err] eqn:Hdecode; [|discriminate].
  intros Hfound. exists req, resp, upstream.
  repeat (split; [assumption || reflexivity|]).
  destruct upstream; now inversion Hfound.
Qed.

(** X3. A postal-code lookup that returns addresses gives one text block per
    address, in the order of the decoded list: the block of an address is
    the upstream address formatted with the normalized input postal code. *)
Theorem handleLookupByPostalCode_one_block_per_address pc hn hl req resp upstream :
  http_NewRequestWithContext env "GET" (postalCodeRequestURL pc hn hl) = Ok req ->
  http_Do env req = Ok resp ->
  StatusCode resp = StatusOK ->
  json_Decode env (Body resp) = Ok upstream ->
  upstream <> [] ->
  handleLookupByPostalCode env (mkPostalCodeArgs pc hn hl)
  = mcp.mkCallToolResult
      (map (fun addr =>
              mcp.TextContent
                (formatAddress env (setPostalCode addr (strings.ReplaceAll pc " " ""))))
         upstream)
      false
  /\ List.length (mcp.Content_ (handleLookupByPostalCode env (mkPostalCodeArgs pc hn hl)))
     = List.length upstream.
Proof.
  intros Hreq Hdo Hstatus Hdecode Hne.
  assert (H : handleLookupByPostalCode env (mkPostalCodeArgs pc hn hl)
              = mcp.mkCallToolResult
                  (map (fun addr =>
                          mcp.TextContent
                            (formatAddress env
                               (setPostalCode addr (strings.ReplaceAll pc " " ""))))
                     upstream)
                  false).
  { unfold handleLookupByPostalCode.
    cbn [argPostalCode argHouseNumber argHouseLetter].
    rewrite (lookupByPostalCode_exchanged env _ _ _ _ _ Hreq Hdo), Hstatus, Hdecode.
    cbn [StatusOK Z.eqb Pos.eqb negb].
    destruct upstream as [|addr rest]; [now elim Hne|].
    cbn [map List.length Nat.eqb]. now rewrite map_map. }
  split; [exact H|]. rewrite H. cbn [mcp.Content_]. apply length_map.
Qed.

End LookupResults.

(** ** The handlers *)

(** X4. For every environment and arguments, a handler marks its result as an
    error exactly when its lookup failed, and its result is never without
    content: the postal-code handler returns at least one text, the
    coordinate handler exactly one. *)
Theorem handlers_error_flag_and_content :
  (forall env pc hn hl,
     (mcp.IsError (handleLookupByPostalCode env (mkPostalCodeArgs pc hn hl)) = true
      <-> exists e, lookupByPostalCode env pc hn hl = Err e)
     /\ mcp.Content_ (handleLookupByPostalCode env (mkPostalCodeArgs pc hn hl)) <> [])
  /\ (forall env lat lon,
        (mcp.IsError (handleLookupByCoordinates env (mkCoordinatesArgs lat lon)) = true
         <-> exists e, lookupByCoordinates env lat lon = Err e)
        /\ List.length
             (mcp.Content_ (handleLookupByCoordinates env (mkCoordinatesArgs lat lon)))
           = 1%nat).
Proof.
  split.
  - intros env pc hn hl. unfold handleLookupByPostalCode.
    cbn [argPostalCode argHouseNumber argHouseLetter].
    destruct (lookupByPostalCode env pc hn hl) as [[|addr rest]|e];
      cbn [List.length Nat.eqb map mcp.IsError mcp.Content_].
    + split; [split|discriminate]; [discriminate|intros [e [=]]].
    + split; [split|discriminate]; [discriminate|intros [e [=]]].
    + split; [split|discriminate]; [now exists e|reflexivity].
  - intros env lat lon. unfold handleLookupByCoordinates.
    cbn [argLatitude argLongitude].
    destruct (lookupByCoordinates env lat lon) as [[addr|]|e];
      cbn [List.length mcp.IsError mcp.Content_].
    + split; [split|reflexivity]; [discriminate|intros [e [=]]].
    + split; [split|reflexivity]; [discriminate|intros [e [=]]].
    + split; [split|reflexivity]; [now exists e|reflexivity].
Qed.

Section FailuresAndInputs.

Variable env : Env.

(** X5. A lookup whose request cannot be created, or whose request gets no
    response, fails with the library's error wrapped: the message is "failed
    to create request: " or "failed to make request: " followed by the
    library's message, [errors.Unwrap] gives the library's error back, and
    the handler returns the message after its own prefix, marked as an
    error. *)
Theorem lookups_wrap_request_failures (cause : error) :
  (forall pc hn hl,
     http_NewRequestWithContext env "GET" (postalCodeRequestURL pc hn hl) = Err cause ->
     lookupByPostalCode env pc hn hl
     = Err (wrapError ("failed to create request: " ++ Error cause) cause)
     /\ handleLookupByPostalCode env (mkPostalCodeArgs pc hn hl)
        = mcp.mkCallToolResult
            [mcp.TextContent
               ("Error looking up postal code: failed to create request: "
                  ++ Error cause)] true)
  /\ (forall pc hn hl req,
        http_NewRequestWithContext env "GET" (postalCodeRequestURL pc hn hl) = Ok req ->
        http_Do env req = Err cause ->
        lookupByPostalCode env pc hn hl
        = Err (wrapError ("failed to make request: " ++ Error cause) cause)
        /\ handleLookupByPostalCode env (mkPostalCodeArgs pc hn hl)
           = mcp.mkCallToolResult
               [mcp.TextContent
                  ("Error looking up postal code: failed to make request: "
                     ++ Error cause)] true)
  /\ (forall lat lon,
        http_NewRequestWithContext env "GET" (coordinatesRequestURL env lat lon)
        = Err cause ->
        lookupByCoordinates env lat lon
        = Err (wrapError ("failed to create request: " ++ Error cause) cause)
        /\ handleLookupByCoordinates env (mkCoordinatesArgs lat lon)
           = mcp.mkCallToolResult
               [mcp.TextContent
                  ("Error looking up coordinates: failed to create request: "
                     ++ Error cause)] true)
  /\ (forall lat lon req,
        http_NewRequestWithContext env "GET" (coordinatesRequestURL env lat lon) = Ok req ->
        http_Do env req = Err cause ->
        lookupByCoordinates env lat lon
        = Err (wrapError ("failed to make request: " ++ Error cause) cause)
        /\ handleLookupByCoordinates env (mkCoordinatesArgs lat lon)
           = mcp.mkCallToolResult
               [mcp.TextContent
                  ("Error looking up coordinates: failed to make request: "
                     ++ Error cause)] true)
  /\ (forall msg, Unwrap (wrapError msg cause) = Some cause).
Proof.
  split; [|split; [|split; [|split]]].
  - intros pc hn hl Hreq.
    unfold handleLookupByPostalCode, lookupByPostalCode.
    cbn [argPostalCode argHouseNumber argHouseLetter]. rewrite Hreq.
    cbn [Error]. now rewrite <- append_assoc.
  - intros pc hn hl req Hreq Hdo.
    unfold handleLookupByPostalCode, lookupByPostalCode.
    cbn [argPostalCode argHouseNumber argHouseLetter]. rewrite Hreq, Hdo.
    cbn [Error]. now rewrite <- append_assoc.
  - intros lat lon Hreq.
    unfold handleLookupByCoordinates, lookupByCoordinates.
    cbn [argLatitude argLongitude]. rewrite Hreq.
    cbn [Error]. now rewrite <- append_assoc.
  - intros lat lon req Hreq Hdo.
    unfold handleLookupByCoordinates, lookupByCoordinates.
    cbn [argLatitude argLongitude]. rewrite Hreq, Hdo.
    cbn [Error]. now rewrite <- append_assoc.
  - reflexivity.
Qed.

(** X6. The body of a response whose status is not 200 is never decoded: the
    lookup gives the same error whatever the decoder would make of the
    body, a valid array of addresses included. *)
Theorem non200_body_is_never_decoded req resp
    (decode : string -> result (list Address)) :
  http_Do env req = Ok resp ->
  StatusCode resp <> StatusOK ->
  (forall pc hn hl,
     http_NewRequestWithContext env "GET" (postalCodeRequestURL pc hn hl) = Ok req ->
     lookupByPostalCode (withDecoder env decode) pc hn hl
     = Err (upstreamError (StatusCode resp)))
  /\ (forall lat lon,
        http_NewRequestWithContext env "GET" (coordinatesRequestURL env lat lon) = Ok req ->
        lookupByCoordinates (withDecoder env decode) lat lon
        = Err (upstreamError (StatusCode resp))).
Proof.
  intros Hdo Hne. apply Z.eqb_neq in Hne. split.
  - intros pc hn hl Hreq.
    rewrite (lookupByPostalCode_exchanged (withDecoder env decode) _ _ _ req resp);
      [|exact Hreq|exact Hdo].
    now rewrite Hne.
  - intros lat lon Hreq.
    rewrite (lookupByCoordinates_exchanged (withDecoder env decode) _ _ req resp);
      [|exact Hreq|exact Hdo].
    now rewrite Hne.
Qed.

(** X7. A postal-code lookup depends on the postal code only through its
    normalized form: two postal codes that differ in spaces only give the
    same lookup result and the same tool result. Without a house number the
    house letter plays no part either. *)
Theorem lookupByPostalCode_ignores_spaces pc1 pc2 :
  strings.ReplaceAll pc1 " " "" = strings.ReplaceAll pc2 " " "" ->
  (forall hn hl,
     lookupByPostalCode env pc1 hn hl = lookupByPostalCode env pc2 hn hl
     /\ handleLookupByPostalCode env (mkPostalCodeArgs pc1 hn hl)
        = handleLookupByPostalCode env (mkPostalCodeArgs pc2 hn hl))
  /\ (forall hl1 hl2,
        lookupByPostalCode env pc1 "" hl1 = lookupByPostalCode env pc2 "" hl2).
Proof.
  intros Hnorm.
  assert (Hurl : forall hn hl,
             postalCodeRequestURL pc1 hn hl = postalCodeRequestURL pc2 hn hl).
  { intros hn hl. unfold postalCodeRequestURL. now rewrite Hnorm. }
  assert (Hlookup : forall hn hl,
             lookupByPostalCode env pc1 hn hl = lookupByPostalCode env pc2 hn hl).
  { intros hn hl. unfold lookupByPostalCode. now rewrite Hurl, Hnorm. }
  split.
  - intros hn hl. split; [apply Hlookup|].
    unfold handleLookupByPostalCode.
    cbn [argPostalCode argHouseNumber argHouseLetter]. now rewrite Hlookup.
  - intros hl1 hl2. rewrite Hlookup. reflexivity.
Qed.

End FailuresAndInputs.

(** ** The formatted text *)

Lemma String__optionalLine (present : bool) (line : string) :
  strings.String_ (optionalLine present line) = optionalText present line.
Proof.
  destruct present; cbn [optionalLine optionalText strings.String_]; [|reflexivity].
  apply append_empty_r.
Qed.

Lemma In_hasLine (label line : string) (sb : strings.Builder) :
  In line sb -> String.prefix label line = true -> hasLine label sb = true.
Proof.
  intros Hin Hprefix. apply existsb_exists. now exists line.
Qed.

Ltac chunk_labels :=
  rewrite formatAddress_sb_chunks; unfold optionalLines; cbn [List.concat];
  rewrite !hasLine_cons, !hasLine_app, !hasLine_optionalLine, !hasLine_cons;
  rewrite ?prefix_append;
  rewrite ?prefix_diverge by reflexivity;
  cbn [hasLine existsb andb orb];
  rewrite ?andb_true_r, ?andb_false_r, ?orb_false_r.

Section FormattedText.

Variable env : Env.

(** X8. The text of an address is, in this order: the Street, House Number,
    Postal Code and City lines, then the Area, Usage Purposes, Build Year,
    WGS84 and Dutch Grid lines, each only when present, then a line feed.
    [NumberStatus] is no part of it: changing it changes nothing. *)
Theorem formatAddress_text (addr : Address) :
  formatAddress env addr
  = ("  Street: " ++ Street addr ++ nl)
      ++ ("  House Number: " ++ composedHouseNumber addr ++ nl)
      ++ ("  Postal Code: " ++ PostalCode addr ++ nl)
      ++ ("  City: " ++ City addr ++ nl)
      ++ optionalText (negb (Area addr =? 0)%Z)
           ("  Area: " ++ strconv.Itoa (Area addr) ++ " m²" ++ nl)
      ++ optionalText (0 <? List.length (UsagePurposes addr))%nat
           ("  Usage Purposes: " ++ strings.Join (UsagePurposes addr) ", " ++ nl)
      ++ optionalText (negb (BuildYear addr =? 0)%Z)
           ("  Build Year: " ++ strconv.Itoa (BuildYear addr) ++ nl)
      ++ optionalText
           (negb (Latitude addr =? 0)%float && negb (Longitude addr =? 0)%float)
           ("  Coordinates (WGS84): " ++ fmt_float64 env (Latitude addr) ++ ", "
              ++ fmt_float64 env (Longitude addr) ++ nl)
      ++ optionalText (negb (X addr =? "") && negb (Y addr =? ""))
           ("  Coordinates (Dutch Grid): " ++ X addr ++ ", " ++ Y addr ++ nl)
      ++ nl
  /\ (forall numberStatus,
        formatAddress env (setNumberStatus addr numberStatus) = formatAddress env addr).
Proof.
  assert (Htext : forall a,
             formatAddress env a
             = ("  Street: " ++ Street a ++ nl)
                 ++ ("  House Number: " ++ composedHouseNumber a ++ nl)
                 ++ ("  Postal Code: " ++ PostalCode a ++ nl)
                 ++ ("  City: " ++ City a ++ nl)
                 ++ optionalText (negb (Area a =? 0)%Z)
                      ("  Area: " ++ strconv.Itoa (Area a) ++ " m²" ++ nl)
                 ++ optionalText (0 <? List.length (UsagePurposes a))%nat
                      ("  Usage Purposes: " ++ strings.Join (UsagePurposes a) ", " ++ nl)
                 ++ optionalText (negb (BuildYear a =? 0)%Z)
                      ("  Build Year: " ++ strconv.Itoa (BuildYear a) ++ nl)
                 ++ optionalText
                      (negb (Latitude a =? 0)%float && negb (Longitude a =? 0)%float)
                      ("  Coordinates (WGS84): " ++ fmt_float64 env (Latitude a) ++ ", "
                         ++ fmt_float64 env (Longitude a) ++ nl)
                 ++ optionalText (negb (X a =? "") && negb (Y a =? ""))
                      ("  Coordinates (Dutch Grid): " ++ X a ++ ", " ++ Y a ++ nl)
                 ++ nl).
  { intros a. unfold formatAddress. rewrite formatAddress_sb_chunks.
    cbn [strings.String_]. rewrite String__app. unfold optionalLines.
    cbn [List.concat]. rewrite !String__app, !String__optionalLine.
    cbn [strings.String_]. now rewrite !append_empty_r, !append_assoc. }
  split; [apply Htext|].
  intros numberStatus. rewrite !Htext. reflexivity.
Qed.

(** X9. The Dutch Grid line is written exactly when [X] and [Y] are both not
    empty, and then it reads "  Coordinates (Dutch Grid): X, Y": an address
    with only one of the two gets no such line. *)
Theorem formatAddress_DutchGrid_line (addr : Address) :
  hasLine "  Coordinates (Dutch Grid): " (formatAddress_sb env addr)
  = negb (X addr =? "") && negb (Y addr =? "")
  /\ (hasLine "  Coordinates (Dutch Grid): " (formatAddress_sb env addr) = false
      <-> (X addr = "" \/ Y addr = ""))
  /\ (In ("  Coordinates (Dutch Grid): " ++ X addr ++ ", " ++ Y addr ++ nl)
        (formatAddress_sb env addr)
      <-> (X addr <> "" /\ Y addr <> "")).
Proof.
  assert (H : hasLine "  Coordinates (Dutch Grid): " (formatAddress_sb env addr)
              = negb (X addr =? "") && negb (Y addr =? "")).
  { chunk_labels. reflexivity. }
  split; [exact H|split].
  - rewrite H.
    destruct (String.eqb_spec (X addr) ""), (String.eqb_spec (Y addr) "");
      cbn [negb andb]; intuition congruence.
  - split.
    + intros Hin. apply In_hasLine with (label := "  Coordinates (Dutch Grid): ") in Hin;
        [|apply prefix_append].
      rewrite H in Hin.
      destruct (String.eqb_spec (X addr) ""), (String.eqb_spec (Y addr) "");
        cbn [negb andb] in Hin; try discriminate. now split.
    + intros [HX HY]. apply String.eqb_neq in HX, HY.
      rewrite formatAddress_sb_chunks. do 4 apply in_cons.
      apply in_or_app. left. unfold optionalLines. apply in_concat.
      exists ["  Coordinates (Dutch Grid): " ++ X addr ++ ", " ++ Y addr ++ nl].
      split; [|now left].
      rewrite HX, HY. cbn [negb andb optionalLine]. do 4 right. now left.
Qed.

(** X10. Every address a successful postal-code lookup returns is formatted with
    the normalized input postal code on its Postal Code line, the third
    line of the block, whatever postcode upstream supplied. *)
Theorem postalCode_blocks_show_normalized_input pc hn hl addresses :
  lookupByPostalCode env pc hn hl = Ok addresses ->
  Forall (fun addr =>
            nth_error (formatAddress_sb env addr) 2
            = Some ("  Postal Code: " ++ strings.ReplaceAll pc " " "" ++ nl)
            /\ exists rest,
                 formatAddress env addr
                 = ("  Street: " ++ Street addr ++ nl)
                     ++ ("  House Number: " ++ composedHouseNumber addr ++ nl)
                     ++ ("  Postal Code: " ++ strings.ReplaceAll pc " " "" ++ nl)
                     ++ rest)
    addresses.
Proof.
  unfold lookupByPostalCode.
  destruct (http_NewRequestWithContext env "GET" _) as [req|err]; [|discriminate].
  destruct (http_Do env req) as [resp|err]; [|discriminate].
  destruct (negb (StatusCode resp =? StatusOK)%Z); [discriminate|].
  destruct (json_Decode env (Body resp)) as [upstream|err]; [|discriminate].
  intros [= <-].
  induction upstream as [|addr rest IH]; cbn [map]; constructor; [|exact IH].
  split.
  - rewrite formatAddress_sb_chunks. reflexivity.
  - unfold formatAddress. rewrite formatAddress_sb_chunks.
    cbn [strings.String_ PostalCode setPostalCode Street]. eexists. reflexivity.
Qed.

End FormattedText.

(** ** main: the transports *)

Section MainSetup.

Variable net_SplitHostPort : string -> result (string * string).
Variable net_JoinHostPort : string -> string -> string.

(** X11. Without the SSE transport the listen address is never parsed: whatever
    it is, well-formed or not, [main] does not end with a fatal error, and
    the only transport is stdio when that flag is set, none otherwise. *)
Theorem mainSetup_without_sse_ignores_address (flags : Flags) :
  useSSE flags = false ->
  mainSetup net_SplitHostPort net_JoinHostPort flags
  = Started
      (mkSetup (if useStdio flags then ["stdio"] else [])
         (if useStdio flags then [WithStdioTransport] else [])
         (url.mkURL "" "")).
Proof.
  intros Hsse. unfold mainSetup. rewrite Hsse.
  destruct (useStdio flags); reflexivity.
Qed.

(** X12. With the SSE transport, [main] ends with the fatal message "Failed to
    split host and port: ..." exactly when the listen address does not split
    into host and port. Otherwise the SSE endpoint has scheme http and the
    host joined with the port, where an empty host part stands for
    localhost; "sse" is listed after "stdio". *)
Theorem mainSetup_sse_endpoint (flags : Flags) :
  useSSE flags = true ->
  ((exists msg, mainSetup net_SplitHostPort net_JoinHostPort flags = Fatal msg)
   <-> exists err, net_SplitHostPort (httpAddr flags) = Err err)
  /\ (forall err,
        net_SplitHostPort (httpAddr flags) = Err err ->
        mainSetup net_SplitHostPort net_JoinHostPort flags
        = Fatal ("Failed to split host and port: " ++ Error err))
  /\ (forall hostPart port,
        net_SplitHostPort (httpAddr flags) = Ok (hostPart, port) ->
        let endpoint :=
          url.mkURL "http"
            (net_JoinHostPort (if hostPart =? "" then "localhost" else hostPart) port) in
        mainSetup net_SplitHostPort net_JoinHostPort flags
        = Started
            (mkSetup
               ((if useStdio flags then ["stdio"] else []) ++ ["sse"])%list
               ((if useStdio flags then [WithStdioTransport] else [])
                  ++ [WithSSETransport endpoint])%list
               endpoint)).
Proof.
  intros Hsse. unfold mainSetup. rewrite Hsse.
  destruct (net_SplitHostPort (httpAddr flags)) as [[hostPart port]|err].
  - split; [split|split].
    + destruct (useStdio flags); intros [msg [=]].
    + intros [err [=]].
    + intros err [=].
    + intros hostPart' port' [= <- <-].
      destruct (useStdio flags), (hostPart =? ""); reflexivity.
  - split; [split|split].
    + intros _. now exists err.
    + intros _. eexists. destruct (useStdio flags); reflexivity.
    + intros err' [= <-]. destruct (useStdio flags); reflexivity.
    + intros hostPart port [=].
Qed.

(** X13. Whenever [main] gets past its setup, the transports it lists are the
    transports of the server options, in the same order; each is listed at
    most once, "stdio" exactly when the stdio flag is set and "sse" exactly
    when the SSE flag is set. With both flags off the list is empty and
    [main] still goes on. *)
Theorem mainSetup_lists_configured_transports (flags : Flags) (setup : Setup) :
  mainSetup net_SplitHostPort net_JoinHostPort flags = Started setup ->
  map transportName (opts setup) = transports setup
  /\ NoDup (transports setup)
  /\ (In "stdio" (transports setup) <-> useStdio flags = true)
  /\ (In "sse" (transports setup) <-> useSSE flags = true)
  /\ (useStdio flags = false -> useSSE flags = false -> transports setup = []).
Proof.
  unfold mainSetup.
  destruct (useStdio flags), (useSSE flags);
    try destruct (net_SplitHostPort (httpAddr flags)) as [[hostPart port]|err];
    intros [= <-]; cbn [transports opts map transportName app];
    (split; [reflexivity|]);
    (split; [repeat constructor; cbn [In]; intuition discriminate|]);
    repeat split; cbn [In]; intuition discriminate.
Qed.

End MainSetup.

(** ** One request per lookup *)

(** X14. A lookup consults its environment for one GET request only, the one to
    its request URL: two environments that answer that request alike give
    the same lookup result, however they differ on any other request. *)
Theorem lookups_depend_on_one_request (env env' : Env) :
  (forall pc hn hl,
     agreeAt env env' (postalCodeRequestURL pc hn hl) ->
     lookupByPostalCode env pc hn hl = lookupByPostalCode env' pc hn hl)
  /\ (forall lat lon,
        fmt_float64 env lat = fmt_float64 env' lat ->
        fmt_float64 env lon = fmt_float64 env' lon ->
        agreeAt env env' (coordinatesRequestURL env lat lon) ->
        lookupByCoordinates env lat lon = lookupByCoordinates env' lat lon).
Proof.
  split.
  - intros pc hn hl [Hreq Hrest]. unfold lookupByPostalCode. rewrite <- Hreq.
    destruct (http_NewRequestWithContext env "GET" _) as [req|err]; [|reflexivity].
    destruct (Hrest req eq_refl) as [Hdo Hdecode]. rewrite <- Hdo.
    destruct (http_Do env req) as [resp|err]; [|reflexivity].
    now rewrite <- (Hdecode resp eq_refl).
  - intros lat lon Hlat Hlon [Hreq Hrest]. unfold lookupByCoordinates.
    assert (Hurl : coordinatesRequestURL env' lat lon = coordinatesRequestURL env lat lon).
    { unfold coordinatesRequestURL. now rewrite Hlat, Hlon. }
    rewrite Hurl, <- Hreq.
    destruct (http_NewRequestWithContext env "GET" _) as [req|err]; [|reflexivity].
    destruct (Hrest req eq_refl) as [Hdo Hdecode]. rewrite <- Hdo.
    destruct (http_Do env req) as [resp|err]; [|reflexivity].
    now rewrite <- (Hdecode resp eq_refl).
Qed.

(** ** The further properties at concrete inputs *)

Lemma lookupByPostalCode_changes_only_postalCode_example :
  exists req resp upstream,
    http_NewRequestWithContext (upstreamEnv 200 bodyTwoAddresses) "GET"
      (postalCodeRequestURL "1234 AB" "" "") = Ok req
    /\ http_Do (upstreamEnv 200 bodyTwoAddresses) req = Ok resp
    /\ StatusCode resp = StatusOK
    /\ json_Decode (upstreamEnv 200 bodyTwoAddresses) (Body resp) = Ok upstream
    /\ List.length
         [setPostalCode decodedDamrak "1234AB"; setPostalCode decodedRokin "1234AB"]
       = List.length upstream
    /\ Forall2 sameButPostalCode
         [setPostalCode decodedDamrak "1234AB"; setPostalCode decodedRokin "1234AB"]
         upstream.
Proof.
  exact (lookupByPostalCode_changes_only_postalCode
           (upstreamEnv 200 bodyTwoAddresses) "1234 AB" "" ""
           [setPostalCode decodedDamrak "1234AB"; setPostalCode decodedRokin "1234AB"]
           eq_refl).
Defined.

Lemma lookupByCoordinates_returns_first_unchanged_example :
  exists req resp upstream,
    http_NewRequestWithContext (upstreamEnv 200 bodyTwoAddresses) "GET"
      (coordinatesRequestURL (upstreamEnv 200 bodyTwoAddresses) 52.5%float 4.25%float)
    = Ok req
    /\ http_Do (upstreamEnv 200 bodyTwoAddresses) req = Ok resp
    /\ StatusCode resp = StatusOK
    /\ json_Decode (upstreamEnv 200 bodyTwoAddresses) (Body resp) = Ok upstream
    /\ Some decodedDamrak = hd_error upstream.
Proof.
  exact (lookupByCoordinates_returns_first_unchanged
           (upstreamEnv 200 bodyTwoAddresses) 52.5%float 4.25%float
           (Some decodedDamrak) eq_refl).
Defined.

Lemma handleLookupByPostalCode_one_block_per_address_example :
  handleLookupByPostalCode (upstreamEnv 200 bodyTwoAddresses)
    (mkPostalCodeArgs "1234 AB" "1" "A")
  = mcp.mkCallToolResult
      (map (fun addr =>
              mcp.TextContent
                (formatAddress (upstreamEnv 200 bodyTwoAddresses)
                   (setPostalCode addr (strings.ReplaceAll "1234 AB" " " ""))))
         [decodedDamrak; decodedRokin])
      false
  /\ List.length
       (mcp.Content_
          (handleLookupByPostalCode (upstreamEnv 200 bodyTwoAddresses)
             (mkPostalCodeArgs "1234 AB" "1" "A")))
     = List.length [decodedDamrak; decodedRokin].
Proof.
  apply (handleLookupByPostalCode_one_block_per_address
           (upstreamEnv 200 bodyTwoAddresses) "1234 AB" "1" "A"
           (mkRequest "GET" (baseURL ++ "/1234AB/1/A"))
           (mkResponse 200 bodyTwoAddresses)
           [decodedDamrak; decodedRokin]);
    [reflexivity|reflexivity|reflexivity|reflexivity|discriminate].
Defined.

(** The request is created and gets no response before the deadline. *)
Lemma lookups_wrap_request_failures_example :
  handleLookupByPostalCode offlineEnv (mkPostalCodeArgs "1234AB" "" "")
  = mcp.mkCallToolResult
      [mcp.TextContent
         "Error looking up postal code: failed to make request: context deadline exceeded"]
      true.
Proof.
  destruct (lookups_wrap_request_failures offlineEnv
              (errorString "context deadline exceeded")) as (_ & Hmake & _).
  exact (proj2 (Hmake "1234AB" "" "" (mkRequest "GET" (baseURL ++ "/1234AB"))
                  eq_refl eq_refl)).
Defined.

(** Status 404 with a body that a decoder would accept. *)
Lemma non200_body_is_never_decoded_example :
  lookupByPostalCode
    (withDecoder (upstreamEnv 404 bodyTwoAddresses) lenient_json_Decode) "1234AB" "" ""
  = Err (errorString "API returned status code 404").
Proof.
  assert (Hne : StatusCode (mkResponse 404 bodyTwoAddresses) <> StatusOK) by discriminate.
  destruct (non200_body_is_never_decoded (upstreamEnv 404 bodyTwoAddresses)
              (mkRequest "GET" (baseURL ++ "/1234AB"))
              (mkResponse 404 bodyTwoAddresses) lenient_json_Decode eq_refl Hne)
    as [Hpostal _].
  exact (Hpostal "1234AB" "" "" eq_refl).
Defined.

Lemma lookupByPostalCode_ignores_spaces_example :
  lookupByPostalCode (upstreamEnv 200 bodyTwoAddresses) " 12 34 AB" "1" "A"
  = lookupByPostalCode (upstreamEnv 200 bodyTwoAddresses) "1234AB" "1" "A".
Proof.
  destruct (lookupByPostalCode_ignores_spaces (upstreamEnv 200 bodyTwoAddresses)
              " 12 34 AB" "1234AB" eq_refl) as [Hsame _].
  exact (proj1 (Hsame "1" "A")).
Defined.

Lemma postalCode_blocks_show_normalized_input_example :
  Forall (fun addr =>
            nth_error (formatAddress_sb (upstreamEnv 200 bodyTwoAddresses) addr) 2
            = Some ("  Postal Code: " ++ strings.ReplaceAll "1234 AB" " " "" ++ nl)
            /\ exists rest,
                 formatAddress (upstreamEnv 200 bodyTwoAddresses) addr
                 = ("  Street: " ++ Street addr ++ nl)
                     ++ ("  House Number: " ++ composedHouseNumber addr ++ nl)
                     ++ ("  Postal Code: " ++ strings.ReplaceAll "1234 AB" " " "" ++ nl)
                     ++ rest)
    [setPostalCode decodedDamrak "1234AB"; setPostalCode decodedRokin "1234AB"].
Proof.
  exact (postalCode_blocks_show_normalized_input
           (upstreamEnv 200 bodyTwoAddresses) "1234 AB" "" ""
           [setPostalCode decodedDamrak "1234AB"; setPostalCode decodedRokin "1234AB"]
           eq_refl).
Defined.

(** A listen address without a port, and no SSE transport: [main] goes on. *)
Lemma mainSetup_without_sse_ignores_address_example :
  mainSetup table_SplitHostPort plain_JoinHostPort (mkFlags "8080" true false)
  = Started (mkSetup ["stdio"] [WithStdioTransport] (url.mkURL "" "")).
Proof.
  exact (mainSetup_without_sse_ignores_address table_SplitHostPort plain_JoinHostPort
           (mkFlags "8080" true false) eq_refl).
Defined.

(** The default listen address with the SSE transport alone. *)
Lemma mainSetup_sse_endpoint_example :
  mainSetup table_SplitHostPort plain_JoinHostPort (mkFlags ":8080" false true)
  = Started
      (mkSetup ["sse"] [WithSSETransport (url.mkURL "http" "localhost:8080")]
         (url.mkURL "http" "localhost:8080")).
Proof.
  destruct (mainSetup_sse_endpoint table_SplitHostPort plain_JoinHostPort
              (mkFlags ":8080" false true) eq_refl) as (_ & _ & Hsplit).
  exact (Hsplit "" "8080" eq_refl).
Defined.

(** The default flags. *)
Lemma mainSetup_lists_configured_transports_example :
  map transportName [WithStdioTransport] = ["stdio"]
  /\ NoDup ["stdio"]
  /\ (In "stdio" ["stdio"] <-> useStdio defaultFlags = true)
  /\ (In "sse" ["stdio"] <-> useSSE defaultFlags = true)
  /\ (useStdio defaultFlags = false -> useSSE defaultFlags = false -> ["stdio"] = []).
Proof.
  exact (mainSetup_lists_configured_transports table_SplitHostPort plain_JoinHostPort
           defaultFlags (mkSetup ["stdio"] [WithStdioTransport] (url.mkURL "" ""))
           eq_refl).
Defined.

(** An upstream that answers every URL and one that answers one URL only
    give the same result for a lookup of that URL. *)
Lemma lookups_depend_on_one_request_example :
  lookupByPostalCode (upstreamEnv 200 "[]") "1234 AB" "" ""
  = lookupByPostalCode (singleURLEnv (baseURL ++ "/1234AB")) "1234 AB" "" "".
Proof.
  apply (proj1 (lookups_depend_on_one_request
                  (upstreamEnv 200 "[]") (singleURLEnv (baseURL ++ "/1234AB")))).
  split; [reflexivity|].
  intros req [= <-]. split; [reflexivity|].
  intros resp [= <-]. reflexivity.
Defined.

(** ** The rendering of the coordinates in the request URL *)

Lemma isDigit_not (c x : ascii) : isDigit x = false -> isDigit c = true -> (c =? x)%char = false.
Proof.
  intros Hx Hc. destruct (Ascii.eqb_spec c x) as [->|_]; [congruence|reflexivity].
Qed.

Lemma allDigits_app (a b : string) : allDigits (a ++ b) = allDigits a && allDigits b.
Proof.
  induction a as [|c a IH]; cbn [append allDigits]; [reflexivity|].
  now rewrite IH, andb_assoc.
Qed.

Lemma allDigits_string_of_uint (u : Decimal.uint) :
  allDigits (NilEmpty.string_of_uint u) = true.
Proof.
  induction u; cbn [NilEmpty.string_of_uint allDigits]; try reflexivity;
    rewrite IHu; reflexivity.
Qed.

Lemma allDigits_zeros (n : nat) : allDigits (ftoa.zeros n) = true.
Proof. induction n; cbn [ftoa.zeros allDigits]; [reflexivity|]. now rewrite IHn. Qed.

Lemma allDigits_substring (d : string) (n : nat) :
  allDigits d = true -> allDigits (substring 0 n d) = true.
Proof.
  revert n. induction d as [|c d IH]; intros [|n] H; cbn [substring allDigits]; try reflexivity.
  cbn [allDigits] in H. apply andb_true_iff in H as [Hc Hd].
  now rewrite Hc, IH.
Qed.

Lemma isDigit_get (d : string) (n : nat) (c : ascii) :
  allDigits d = true -> String.get n d = Some c -> isDigit c = true.
Proof.
  revert n. induction d as [|c' d IH]; intros n H Hget; [discriminate|].
  cbn [allDigits] in H. apply andb_true_iff in H as [Hc Hd].
  destruct n as [|n]; cbn [String.get] in Hget.
  - now injection Hget as <-.
  - now apply (IH n).
Qed.

Lemma isDigit_digitAt (d : string) (j : Z) :
  allDigits d = true -> isDigit (ftoa.digitAt d j) = true.
Proof.
  intros H. unfold ftoa.digitAt. destruct (j <? 0)%Z; [reflexivity|].
  destruct (String.get (Z.to_nat j) d) as [c|] eqn:Hget; [|reflexivity].
  now apply (isDigit_get d (Z.to_nat j)).
Qed.

Lemma allDigits_digitsFrom (d : string) (j : Z) (n : nat) :
  allDigits d = true -> allDigits (ftoa.digitsFrom d j n) = true.
Proof.
  intros H. revert j. induction n as [|n IH]; intros j; cbn [ftoa.digitsFrom allDigits];
    [reflexivity|].
  now rewrite isDigit_digitAt, IH.
Qed.

Lemma unsignedDecimal_digits (a rest : string) (seen : bool) :
  allDigits a = true ->
  unsignedDecimal seen (a ++ rest) = unsignedDecimal (seen || negb (a =? "")) rest.
Proof.
  revert seen. induction a as [|c a IH]; intros seen H; cbn [append].
  - now rewrite orb_false_r.
  - cbn [allDigits] in H. apply andb_true_iff in H as [Hc Ha].
    cbn [unsignedDecimal]. rewrite Hc, (IH true Ha). cbn. now rewrite orb_true_r.
Qed.

Lemma plainDecimal_parts (neg : bool) (int frac : string) :
  allDigits int = true -> int <> "" ->
  (frac = "" \/ exists digits, frac = "." ++ digits /\ digits <> "" /\ allDigits digits = true) ->
  plainDecimal (ftoa.sign neg ++ int ++ frac) = true.
Proof.
  intros Hint Hne Hfrac.
  assert (Hu : unsignedDecimal false (int ++ frac) = true).
  { rewrite (unsignedDecimal_digits _ _ _ Hint).
    destruct (String.eqb_spec int "") as [->|_]; [now elim Hne|]. cbn [negb orb].
    destruct Hfrac as [->|(digits & -> & Hd & Hall)]; [reflexivity|].
    cbn. rewrite Hall. destruct (String.eqb_spec digits ""); [contradiction|reflexivity]. }
  destruct neg; cbn [ftoa.sign append]; [exact Hu|].
  destruct int as [|c int']; [now elim Hne|].
  cbn [append plainDecimal]. cbn [allDigits] in Hint.
  apply andb_true_iff in Hint as [Hc _].
  rewrite (isDigit_not c "-" eq_refl Hc). exact Hu.
Qed.

Lemma plainDecimal_fmtF (neg : bool) (d : string) (dp prec : Z) :
  allDigits d = true -> plainDecimal (ftoa.fmtF neg d dp prec) = true.
Proof.
  intros H. unfold ftoa.fmtF. apply plainDecimal_parts.
  - destruct (0 <? dp)%Z; [|reflexivity].
    now rewrite allDigits_app, allDigits_substring, allDigits_zeros.
  - destruct (0 <? dp)%Z eqn:Hdp; [|discriminate].
    apply Z.ltb_lt in Hdp.
    destruct (Z.min_spec (Z.of_nat (String.length d)) dp) as [[Hlt ->]|[Hle ->]].
    + destruct (Z.to_nat (dp - Z.of_nat (String.length d))) eqn:E; [lia|].
      cbn [ftoa.zeros]. now destruct (substring 0 _ d).
    + destruct d as [|c d]; [cbn [String.length] in Hle; lia|].
      destruct (Z.to_nat dp) eqn:E; [lia|]. discriminate.
  - destruct (0 <? prec)%Z eqn:Hprec; [|now left]. right.
    apply Z.ltb_lt in Hprec.
    exists (ftoa.digitsFrom d dp (Z.to_nat prec)). split; [reflexivity|]. split.
    + destruct (Z.to_nat prec) eqn:E; [lia|discriminate].
    + now apply allDigits_digitsFrom.
Qed.

Lemma occurs_app (c : ascii) (a b : string) : occurs c (a ++ b) = occurs c a || occurs c b.
Proof.
  induction a as [|x a IH]; cbn [append occurs]; [reflexivity|].
  now rewrite IH, orb_assoc.
Qed.

Lemma allDigits_no_e (s : string) : allDigits s = true -> occurs "e" s = false.
Proof.
  induction s as [|c s IH]; cbn [allDigits occurs]; [reflexivity|].
  intros H. apply andb_true_iff in H as [Hc Hs].
  now rewrite (isDigit_not c "e" eq_refl Hc), IH.
Qed.

Lemma unsignedDecimal_no_e (s : string) (seen : bool) :
  unsignedDecimal seen s = true -> occurs "e" s = false.
Proof.
  revert seen. induction s as [|c s IH]; intros seen; cbn [unsignedDecimal occurs];
    [reflexivity|].
  destruct (isDigit c) eqn:Hc.
  - intros H. now rewrite (isDigit_not c "e" eq_refl Hc), (IH true H).
  - destruct (Ascii.eqb_spec c ".") as [->|_]; [|discriminate].
    intros H. apply andb_true_iff in H as [_ Hall]. cbn [Ascii.eqb Bool.eqb orb].
    now apply allDigits_no_e.
Qed.

Lemma plainDecimal_no_e (s : string) : plainDecimal s = true -> occurs "e" s = false.
Proof.
  destruct s as [|c s]; [discriminate|]. cbn [plainDecimal].
  destruct (Ascii.eqb_spec c "-") as [->|_]; intros H.
  - cbn [occurs Ascii.eqb Bool.eqb orb]. now apply (unsignedDecimal_no_e s false).
  - now apply (unsignedDecimal_no_e (String c s) false).
Qed.

Lemma plainDecimal_fmtE (neg : bool) (d : string) (dp prec : Z) :
  plainDecimal (ftoa.fmtE neg d dp prec) = false.
Proof.
  destruct (plainDecimal (ftoa.fmtE neg d dp prec)) eqn:H; [|reflexivity].
  apply plainDecimal_no_e in H. unfold ftoa.fmtE in H.
  rewrite !occurs_app in H. cbn [occurs Ascii.eqb Bool.eqb orb] in H.
  rewrite !orb_true_r in H. discriminate.
Qed.

Lemma allDigits_shortest (m : positive) (e : Z) : allDigits (fst (ftoa.shortest m e)) = true.
Proof.
  unfold ftoa.shortest.
  destruct (ftoa.shortestFrom _ _ _ _ _ _ _ _) as [c k].
  destruct (ftoa.stripZeros _ c k) as [c' k']. cbn [fst].
  apply allDigits_string_of_uint.
Qed.

(** [%v] prints a float in decimal form exactly when the float is zero or
    the decimal exponent of its shortest digits is at least -4 and below 6;
    otherwise it prints an exponent, or the name of an infinity or NaN. *)
Lemma plainDecimal_FormatFloat (f : float) :
  plainDecimal (ftoa.FormatFloat f) = usesPlainNotation f.
Proof.
  unfold ftoa.FormatFloat, usesPlainNotation.
  destruct (Prim2SF f) as [neg|neg| |neg m e].
  - apply (plainDecimal_fmtF neg "" 0 _ eq_refl).
  - now destruct neg.
  - reflexivity.
  - pose proof (allDigits_shortest m e) as Hd.
    destruct (ftoa.shortest m e) as [d dp]. cbn [fst snd] in *.
    unfold ftoa.fmtG.
    destruct (dp - 1 <? -4)%Z eqn:Hlow; cbn [orb].
    + rewrite plainDecimal_fmtE. symmetry.
      apply Z.ltb_lt in Hlow. apply andb_false_iff. left. apply Z.leb_gt. lia.
    + destruct (6 <=? dp - 1)%Z eqn:Hhigh.
      * rewrite plainDecimal_fmtE. symmetry.
        apply Z.leb_le in Hhigh. apply andb_false_iff. right. apply Z.ltb_ge. lia.
      * rewrite (plainDecimal_fmtF _ _ _ _ Hd). symmetry.
        apply Z.ltb_ge in Hlow. apply Z.leb_gt in Hhigh.
        apply andb_true_iff. split; [apply Z.leb_le|apply Z.ltb_lt]; lia.
Qed.

(** C9, as the code has it. The request URL of a coordinate lookup is the
    base URL, then the latitude, then the longitude, each after a slash and
    each as [%v] prints it; the lookup asks for a GET of exactly this URL.
    As Go prints a [float64], the number is in decimal form exactly when it
    is zero or the decimal exponent of its shortest digits is at least -4
    and below 6 (52.375 and 4.25 are); otherwise it has an exponent. *)
Theorem coordinates_request_path_rendering :
  (forall env lat lon,
     coordinatesRequestURL env lat lon
     = baseURL ++ "/" ++ fmt_float64 env lat ++ "/" ++ fmt_float64 env lon)
  /\ (forall env lat lon,
        coordinatesRequestURL (goFmtEnv env) lat lon
        = baseURL ++ "/" ++ ftoa.FormatFloat lat ++ "/" ++ ftoa.FormatFloat lon)
  /\ (forall lat lon,
        lookupByCoordinates (goFmtEnv probeEnv) lat lon
        = Err (wrapError
                 ("failed to create request: GET " ++ baseURL ++ "/"
                    ++ ftoa.FormatFloat lat ++ "/" ++ ftoa.FormatFloat lon)
                 (errorString
                    ("GET " ++ baseURL ++ "/" ++ ftoa.FormatFloat lat ++ "/"
                       ++ ftoa.FormatFloat lon))))
  /\ (forall f, plainDecimal (ftoa.FormatFloat f) = usesPlainNotation f)
  /\ coordinatesRequestURL (goFmtEnv probeEnv) 52.375%float 4.25%float
     = baseURL ++ "/52.375/4.25"
  /\ plainDecimal "52.375" = true
  /\ plainDecimal "4.25" = true.
Proof.
  split; [reflexivity|]. split; [reflexivity|]. split; [reflexivity|].
  split; [exact plainDecimal_FormatFloat|].
  split; [vm_compute; reflexivity|]. split; reflexivity.
Qed.

(** What [%v] prints for some floats. *)
Example FormatFloat_examples :
  map ftoa.FormatFloat
    [52.375; 4.25; (1 / 10); (-3.5); 0; (-0); 100000; 1000000; 1234567;
     (1 / 10000); (1 / 100000); (1 / 10 + 2 / 10); infinity; nan]%float
  = ["52.375"; "4.25"; "0.1"; "-3.5"; "0"; "-0"; "100000"; "1e+06"; "1.234567e+06";
     "0.0001"; "1e-05"; "0.30000000000000004"; "+Inf"; "NaN"].
Proof. vm_compute. reflexivity. Qed.

(** The latitude 0.00001 (the float nearest to it): the path carries it as
    1e-05, which is not in decimal form. *)
Lemma coordinates_path_in_exponent_notation :
  coordinatesRequestURL (goFmtEnv probeEnv) (1 / 100000)%float 4.25%float
  = baseURL ++ "/1e-05/4.25"
  /\ fmt_float64 (goFmtEnv probeEnv) (1 / 100000)%float = "1e-05"
  /\ plainDecimal (fmt_float64 (goFmtEnv probeEnv) (1 / 100000)%float) = false
  /\ usesPlainNotation (1 / 100000)%float = false.
Proof.
  repeat split; vm_compute; reflexivity.
Qed.
